(** * Colour Contrast Analyser: the frontend colour/contrast state module

    A shallow embedding of the TypeScript frontend of the Colour Contrast
    Analyser (the revisions of [store.ts], [utils.ts] and the inline Alpine
    store of [main.ts]) together with the properties its specification
    states about it.

    Layout: first the fragment of ECMAScript the sources rely on (number
    values, relational comparison, [parseInt], [Number.prototype.toString],
    the string methods), then one module per source revision, then the
    theorems. *)

From Stdlib Require Import NArith ZArith QArith String Ascii List Bool Lia.
Import ListNotations.

Local Open Scope string_scope.

(* ================================================================= *)
(** ** The ECMAScript fragment used by the sources *)

Module JS.

(** Strings are Rocq strings: one character per code unit, code units
    below 256. *)

(** A Number value.  [Num q] is a finite value, written as the rational it
    denotes (every finite double is one; [-0] and [+0] print and compare
    alike everywhere below and are both [Num 0]). *)
Inductive number : Type :=
| NaN
| Infinity (negative : bool)
| Num (q : Q).

(** The abstract relational comparison [x < y] of ECMAScript: [None] is
    its [undefined] answer, given as soon as one side is [NaN]. *)
Definition IsLessThan (x y : number) : option bool :=
  match x, y with
  | NaN, _ => None
  | _, NaN => None
  | Infinity a, Infinity b => Some (a && negb b)
  | Infinity a, Num _ => Some a
  | Num _, Infinity b => Some (negb b)
  | Num p, Num q => Some (negb (Qle_bool q p))
  end.

(** [x < y], [x >= y] and [x <= y] as the language derives them from
    [IsLessThan]: an [undefined] answer makes each of them [false]. *)
Definition lt (x y : number) : bool :=
  match IsLessThan x y with Some true => true | _ => false end.

Definition ge (x y : number) : bool :=
  match IsLessThan x y with Some false => true | _ => false end.

Definition le (x y : number) : bool :=
  match IsLessThan y x with Some false => true | _ => false end.

(** The digit characters of [Number.prototype.toString]: [0-9a-z]. *)
Definition digitChar (d : N) : ascii :=
  if (d <? 10)%N then ascii_of_N (48 + d) else ascii_of_N (87 + d).

Fixpoint digitsLoop (fuel : nat) (radix n : N) (acc : string) : string :=
  match fuel with
  | O => acc
  | S fuel' =>
      let acc' := String (digitChar (n mod radix)) acc in
      if (n / radix =? 0)%N then acc' else digitsLoop fuel' radix (n / radix) acc'
  end.

(** The positional digits of a natural number; a number below [2^k] has at
    most [k] digits in any radix from 2 up, so the fuel suffices. *)
Definition integerDigits (radix n : N) : string :=
  digitsLoop (S (N.to_nat (N.log2 n))) radix n "".

(** The digits after the point of [num/den < 1], as long as there are any
    and the fuel lasts. *)
Fixpoint fractionDigits (fuel : nat) (radix num den : N) : string :=
  match fuel with
  | O => ""
  | S fuel' =>
      if (num =? 0)%N then ""
      else String (digitChar (num * radix / den))
                  (fractionDigits fuel' radix (num * radix mod den) den)
  end.

(** [Number.prototype.toString(radix)], which with radix 10 is also the
    [ToString] a template literal applies to a number.  Integers print
    positionally, which is exact for the bytes and small integers handled
    here (from 10^21 on the engine switches to exponent form in radix 10);
    a non-integer prints its integer part, a point and its positional
    digits, where the engine prints the shortest digits that read back as
    the same double.  Neither of the two engine rules is reproduced, and
    no statement below depends on the text of such a value. *)
Definition Number_toString (radix : N) (x : number) : string :=
  match x with
  | NaN => "NaN"
  | Infinity false => "Infinity"
  | Infinity true => "-Infinity"
  | Num q =>
      let den := Npos (Qden q) in
      let a := Z.abs_N (Qnum q) in
      let whole := (a / den)%N in
      let rest := (a mod den)%N in
      (if (Qnum q <? 0)%Z then "-" else "")
      ++ integerDigits radix whole
      ++ (if (rest =? 0)%N then "" else "." ++ fractionDigits 20 radix rest den)
  end.

(** [String.prototype.slice(start, end)] for the non-negative indices the
    sources pass: the characters from [start] up to, not including, [end],
    cut short where the string ends. *)
Definition slice (s : string) (start end_ : nat) : string :=
  substring start (end_ - start) s.

Fixpoint repeatChar (n : nat) (c : ascii) : string :=
  match n with
  | O => ""
  | S n' => String c (repeatChar n' c)
  end.

(** [String.prototype.padStart(targetLength, fill)] with a one-character
    fill string. *)
Definition padStart (targetLength : nat) (fill : ascii) (s : string) : string :=
  if (String.length s <? targetLength)%nat
  then repeatChar (targetLength - String.length s) fill ++ s
  else s.

Definition upperChar (c : ascii) : ascii :=
  let n := N_of_ascii c in
  if ((97 <=? n) && (n <=? 122))%N then ascii_of_N (n - 32) else c.

(** [String.prototype.toUpperCase] on the characters the sources apply it
    to (the output of [toString(16)]; only [a-z] change). *)
Fixpoint toUpperCase (s : string) : string :=
  match s with
  | EmptyString => EmptyString
  | String c rest => String (upperChar c) (toUpperCase rest)
  end.

(** White space that [parseInt] skips, among the code units below 256. *)
Definition isWhiteSpace (c : ascii) : bool :=
  let n := N_of_ascii c in
  (((9 <=? n) && (n <=? 13)) || (n =? 32) || (n =? 160))%N.

Fixpoint trimStart (s : string) : string :=
  match s with
  | EmptyString => EmptyString
  | String c rest => if isWhiteSpace c then trimStart rest else s
  end.

(** The value of a digit character in the given radix, if it is one. *)
Definition digitValue (radix : N) (c : ascii) : option N :=
  let n := N_of_ascii c in
  let v :=
    if ((48 <=? n) && (n <=? 57))%N then Some (n - 48)%N
    else if ((97 <=? n) && (n <=? 122))%N then Some (n - 87)%N
    else if ((65 <=? n) && (n <=? 90))%N then Some (n - 55)%N
    else None in
  match v with
  | Some d => if (d <? radix)%N then Some d else None
  | None => None
  end.

(** The value of the longest prefix of digits; [acc] is [None] until a
    first digit has been read. *)
Fixpoint parseDigits (radix : N) (s : string) (acc : option N) : option N :=
  match s with
  | EmptyString => acc
  | String c rest =>
      match digitValue radix c with
      | Some d =>
          parseDigits radix rest
            (Some (match acc with Some a => a * radix + d | None => d end)%N)
      | None => acc
      end
  end.

(** [parseInt(string, radix)] with an explicit radix from 2 to 36: skip
    leading white space, read a sign, strip [0x]/[0X] when the radix is 16,
    then read digits as far as they go; no digit at all gives [NaN]. *)
Definition parseInt (string : string) (radix : N) : number :=
  let S0 := trimStart string in
  let '(negative, S1) :=
    match S0 with
    | String "-" rest => (true, rest)
    | String "+" rest => (false, rest)
    | _ => (false, S0)
    end in
  let S2 :=
    if (radix =? 16)%N then
      match S1 with
      | String "0" (String "x" rest) => rest
      | String "0" (String "X" rest) => rest
      | _ => S1
      end
    else S1 in
  match parseDigits radix S2 None with
  | None => NaN
  | Some n => Num (inject_Z (if negative then - Z.of_N n else Z.of_N n))
  end.

(** A value that is [string | null] used as a condition: [null] and the
    empty string are falsy. *)
Definition truthy (v : option string) : bool :=
  match v with
  | Some s => negb (s =? "")
  | None => false
  end.

(** How an awaited promise settles. *)
Inductive outcome (A : Type) : Type :=
| Resolved (value : A)
| Rejected (error : string).

Arguments Resolved {A} value.
Arguments Rejected {A} error.

(** What a method does besides assigning to the store. *)
Inductive effect (Callback : Type) : Type :=
| console_error (label error : string)
| setTimeout (callback : Callback) (ms : N).

Arguments console_error {Callback} label error.
Arguments setTimeout {Callback} callback ms.

(** An [async] method with one [await]: the statements run up to the
    [await] ([enter], which also yields the argument handed to the awaited
    call), and the continuation run once the promise has settled
    ([resume]), on the store as it is by then. *)
Record AsyncMethod (Store Request Response Callback : Type) : Type := {
  enter : Store -> Store * Request;
  resume : outcome Response -> Store -> Store * list (effect Callback)
}.

Arguments enter {Store Request Response Callback} _ _.
Arguments resume {Store Request Response Callback} _ _ _.

(** One whole call: [enter], then whatever other handlers did to the store
    while the call was suspended, then [resume]. *)
Definition call {Store Request Response Callback : Type}
  (m : AsyncMethod Store Request Response Callback)
  (meanwhile : Store -> Store) (o : outcome Response) (this : Store)
  : Store * list (effect Callback) :=
  resume m o (meanwhile (fst (enter m this))).

End JS.

Import JS.

(* ================================================================= *)
(** ** utils.ts *)

Module Utils.

(** The three [const r], [const g], [const b] of [hexToRgb]. *)
Definition hexToRgb_channels (hex : string) : number * number * number :=
  let r := parseInt (slice hex 1 3) 16 in
  let g := parseInt (slice hex 3 5) 16 in
  let b := parseInt (slice hex 5 7) 16 in
  (r, g, b).

(** [hexToRgb(hex)]: the display string [`${r}, ${g}, ${b}`]. *)
Definition hexToRgb (hex : string) : string :=
  let '(r, g, b) := hexToRgb_channels hex in
  Number_toString 10 r ++ ", " ++ Number_toString 10 g ++ ", " ++ Number_toString 10 b.

(** [n.toString(16).padStart(2, '0').toUpperCase()] *)
Definition hexByte (n : number) : string :=
  toUpperCase (padStart 2 "0" (Number_toString 16 n)).

(** [rgbToHex(r, g, b)] *)
Definition rgbToHex (r g b : number) : string :=
  "#" ++ hexByte r ++ hexByte g ++ hexByte b.

End Utils.

(** A colour as the backend serialises it: a JSON array of three JSON
    numbers.  JSON has no literal for [NaN] or an infinity, so a number
    that arrives in a payload is finite. *)
Definition rgb_tuple : Type := (Q * Q * Q)%type.

(* ================================================================= *)
(** ** The Alpine store [colorPickerStore]

    The interface [ColorPickerStore], the initial store and the methods
    [pickColor] and [copyHex] read the same in the two revisions of
    store.ts that declare them (the hex-payload one and the RGB-payload
    one); the revisions differ in [ColorStore] and [updateFromTauriStore],
    which follow in the modules [HexStore] and [RgbStore]. *)

Module ColorPicker.

(** [interface ColorResult], what [pick_color] resolves with. *)
Module ColorResult.
Record t : Type := {
  foreground : option rgb_tuple;
  background : option rgb_tuple;
  continue_mode : bool
}.
End ColorResult.

Record ColorPickerStore : Type := {
  isPicking : bool;
  resultVisible : bool;
  foreground : string;
  background : string;
  foregroundRgb : string;
  backgroundRgb : string;
  copiedVisible : bool
}.

Definition set_isPicking (v : bool) (this : ColorPickerStore) : ColorPickerStore :=
  let (_, rv, f, b, fr, br, cv) := this in Build_ColorPickerStore v rv f b fr br cv.

Definition set_resultVisible (v : bool) (this : ColorPickerStore) : ColorPickerStore :=
  let (ip, _, f, b, fr, br, cv) := this in Build_ColorPickerStore ip v f b fr br cv.

Definition set_foreground (v : string) (this : ColorPickerStore) : ColorPickerStore :=
  let (ip, rv, _, b, fr, br, cv) := this in Build_ColorPickerStore ip rv v b fr br cv.

Definition set_background (v : string) (this : ColorPickerStore) : ColorPickerStore :=
  let (ip, rv, f, _, fr, br, cv) := this in Build_ColorPickerStore ip rv f v fr br cv.

Definition set_foregroundRgb (v : string) (this : ColorPickerStore) : ColorPickerStore :=
  let (ip, rv, f, b, _, br, cv) := this in Build_ColorPickerStore ip rv f b v br cv.

Definition set_backgroundRgb (v : string) (this : ColorPickerStore) : ColorPickerStore :=
  let (ip, rv, f, b, fr, _, cv) := this in Build_ColorPickerStore ip rv f b fr v cv.

Definition set_copiedVisible (v : bool) (this : ColorPickerStore) : ColorPickerStore :=
  let (ip, rv, f, b, fr, br, _) := this in Build_ColorPickerStore ip rv f b fr br v.

(** [export const colorPickerStore = { ... }]: the store as created. *)
Definition colorPickerStore : ColorPickerStore := {|
  isPicking := false;
  resultVisible := false;
  foreground := "";
  background := "";
  foregroundRgb := "";
  backgroundRgb := "";
  copiedVisible := false
|}.

(** The one function handed to [setTimeout]:
    [() => { this.copiedVisible = false; }]. *)
Inductive callback : Type :=
| hideCopied.

Definition runCallback (cb : callback) (this : ColorPickerStore) : ColorPickerStore :=
  match cb with
  | hideCopied => set_copiedVisible false this
  end.

(** [async pickColor(fg)]: raise [isPicking], await
    [invoke('pick_color', { fg })], log a rejection, and in the [finally]
    lower [isPicking].  The resolved value is not looked at. *)
Definition pickColor (fg : bool)
  : AsyncMethod ColorPickerStore bool ColorResult.t callback := {|
  enter := fun this =>
    let this := set_isPicking true this in
    (this, fg);
  resume := fun o this =>
    let '(this, effects) :=
      match o with
      | Resolved _ => (this, [])
      | Rejected error => (this, [console_error "Error:" error])
      end in
    let this := set_isPicking false this in
    (this, effects)
|}.

(** [async copyHex(isForeground)]: choose the hex, await
    [navigator.clipboard.writeText(hex)]; once written show the
    notification and arm the 1500 ms timer that hides it; a rejection is
    logged. *)
Definition copyHex (isForeground : bool)
  : AsyncMethod ColorPickerStore string unit callback := {|
  enter := fun this =>
    let hex := if isForeground then foreground this else background this in
    (this, hex);
  resume := fun o this =>
    match o with
    | Resolved _ =>
        let this := set_copiedVisible true this in
        (this, [setTimeout hideCopied 1500])
    | Rejected err => (this, [console_error "Failed to copy:" err])
    end
|}.

(** *** The event loop around the store

    Everything that writes to the store, as the events that run it: the
    two halves of each method call, an elapsed timer, and the listener of
    [store-updated], which hands the payload to [updateFromTauriStore]. *)

Section EventLoop.

Variable Payload : Type.
Variable updateFromTauriStore : ColorPickerStore -> Payload -> ColorPickerStore.

Inductive event : Type :=
| pickColor_called (fg : bool)
| pickColor_settled (fg : bool) (o : outcome ColorResult.t)
| copyHex_called (isForeground : bool)
| copyHex_settled (isForeground : bool) (o : outcome unit)
| timer_elapsed
| store_updated (payload : Payload).

Record World : Type := {
  store : ColorPickerStore;
  timers : list callback;
  console : list (string * string)
}.

Fixpoint perform (effects : list (effect callback)) (w : World) : World :=
  match effects with
  | [] => w
  | console_error label error :: rest =>
      perform rest {| store := store w; timers := timers w;
                      console := console w ++ [(label, error)] |}
  | setTimeout cb _ :: rest =>
      perform rest {| store := store w; timers := timers w ++ [cb];
                      console := console w |}
  end.

Definition settle (r : ColorPickerStore * list (effect callback)) (w : World) : World :=
  perform (snd r) {| store := fst r; timers := timers w; console := console w |}.

(** All timers are armed with the same delay, so they elapse in the order
    they were armed. *)
Definition dispatch (e : event) (w : World) : World :=
  match e with
  | pickColor_called fg =>
      {| store := fst (enter (pickColor fg) (store w));
         timers := timers w; console := console w |}
  | pickColor_settled fg o => settle (resume (pickColor fg) o (store w)) w
  | copyHex_called isForeground =>
      {| store := fst (enter (copyHex isForeground) (store w));
         timers := timers w; console := console w |}
  | copyHex_settled isForeground o =>
      settle (resume (copyHex isForeground) o (store w)) w
  | timer_elapsed =>
      match timers w with
      | [] => w
      | cb :: rest =>
          {| store := runCallback cb (store w); timers := rest;
             console := console w |}
      end
  | store_updated payload =>
      {| store := updateFromTauriStore (store w) payload;
         timers := timers w; console := console w |}
  end.

Fixpoint run (events : list event) (w : World) : World :=
  match events with
  | [] => w
  | e :: rest => run rest (dispatch e w)
  end.

End EventLoop.

Arguments pickColor_called {Payload} fg.
Arguments pickColor_settled {Payload} fg o.
Arguments copyHex_called {Payload} isForeground.
Arguments copyHex_settled {Payload} isForeground o.
Arguments timer_elapsed {Payload}.
Arguments store_updated {Payload} payload.
Arguments dispatch {Payload} updateFromTauriStore e w.
Arguments run {Payload} updateFromTauriStore events w.

End ColorPicker.

(* ================================================================= *)
(** ** store.ts, hex payloads: [updateFromTauriStore] *)

Module HexStore.
Import ColorPicker.

(** [interface ColorStore]: each colour is a ["#RRGGBB"] string or [null]. *)
Module ColorStore.
Record t : Type := {
  foreground : option string;
  background : option string;
  continue_mode : bool
}.
End ColorStore.

Definition updateFromTauriStore (this : ColorPickerStore) (store : ColorStore.t)
  : ColorPickerStore :=
  let this :=
    match ColorStore.foreground store with
    | Some hex =>
        if truthy (Some hex) then
          let this := set_foreground hex this in
          let this := set_foregroundRgb (Utils.hexToRgb hex) this in
          let this := set_resultVisible true this in
          this
        else this
    | None => this
    end in
  let this :=
    match ColorStore.background store with
    | Some hex =>
        if truthy (Some hex) then
          let this := set_background hex this in
          let this := set_backgroundRgb (Utils.hexToRgb hex) this in
          let this := set_resultVisible true this in
          this
        else this
    | None => this
    end in
  this.

End HexStore.

(* ================================================================= *)
(** ** store.ts, RGB payloads: [updateFromTauriStore] *)

Module RgbStore.
Import ColorPicker.

(** [interface ColorStore]: both colours are always there, as triples. *)
Module ColorStore.
Record t : Type := {
  foreground_rgb : rgb_tuple;
  background_rgb : rgb_tuple;
  continue_mode : bool
}.
End ColorStore.

Definition updateFromTauriStore (this : ColorPickerStore) (store : ColorStore.t)
  : ColorPickerStore :=
  let '(fr, fg, fb) := ColorStore.foreground_rgb store in
  let foregroundHex :=
    "#" ++ Utils.hexByte (Num fr) ++ Utils.hexByte (Num fg) ++ Utils.hexByte (Num fb) in
  let this := set_foreground foregroundHex this in
  let this :=
    set_foregroundRgb
      (Number_toString 10 (Num fr) ++ ", " ++ Number_toString 10 (Num fg) ++ ", "
       ++ Number_toString 10 (Num fb)) this in
  let '(br, bg, bb) := ColorStore.background_rgb store in
  let backgroundHex :=
    "#" ++ Utils.hexByte (Num br) ++ Utils.hexByte (Num bg) ++ Utils.hexByte (Num bb) in
  let this := set_background backgroundHex this in
  let this :=
    set_backgroundRgb
      (Number_toString 10 (Num br) ++ ", " ++ Number_toString 10 (Num bg) ++ ", "
       ++ Number_toString 10 (Num bb)) this in
  let this := set_resultVisible true this in
  this.

End RgbStore.

(* ================================================================= *)
(** ** store.ts, the [UIStore] revision: platform, dark flags, contrast
       ratio and WCAG levels *)

Module WcagStore.

(** [interface BackendStore]; the ratio, like the channels, arrives as a
    JSON number. *)
Record BackendStore : Type := {
  platform : string;
  foreground_rgb : rgb_tuple;
  foreground_hex : string;
  foreground_is_dark : bool;
  background_rgb : rgb_tuple;
  background_hex : string;
  background_is_dark : bool;
  contrast_ratio_rounded : Q;
  continue_mode : bool
}.

(** [interface UIStore]; the fields carry the source's names, the
    projections a [ui_] in front where the payload has the same name. *)
Record UIStore : Type := {
  ui_platform : string;
  isPicking : bool;
  foregroundRgb : string;
  foregroundHex : string;
  foregroundIsDark : bool;
  backgroundRgb : string;
  backgroundHex : string;
  backgroundIsDark : bool;
  contrastRatio : string;
  currentICCProfile : string;
  level143Regular : bool;
  level143Large : bool;
  level146Regular : bool;
  level146Large : bool;
  level1411 : bool
}.

Definition set_platform (v : string) (this : UIStore) : UIStore :=
  let (_, ip, fr, fh, fd, br, bh, bd, cr, icc, l1, l2, l3, l4, l5) := this in
  Build_UIStore v ip fr fh fd br bh bd cr icc l1 l2 l3 l4 l5.

Definition set_isPicking (v : bool) (this : UIStore) : UIStore :=
  let (p, _, fr, fh, fd, br, bh, bd, cr, icc, l1, l2, l3, l4, l5) := this in
  Build_UIStore p v fr fh fd br bh bd cr icc l1 l2 l3 l4 l5.

Definition set_foregroundRgb (v : string) (this : UIStore) : UIStore :=
  let (p, ip, _, fh, fd, br, bh, bd, cr, icc, l1, l2, l3, l4, l5) := this in
  Build_UIStore p ip v fh fd br bh bd cr icc l1 l2 l3 l4 l5.

Definition set_foregroundHex (v : string) (this : UIStore) : UIStore :=
  let (p, ip, fr, _, fd, br, bh, bd, cr, icc, l1, l2, l3, l4, l5) := this in
  Build_UIStore p ip fr v fd br bh bd cr icc l1 l2 l3 l4 l5.

Definition set_foregroundIsDark (v : bool) (this : UIStore) : UIStore :=
  let (p, ip, fr, fh, _, br, bh, bd, cr, icc, l1, l2, l3, l4, l5) := this in
  Build_UIStore p ip fr fh v br bh bd cr icc l1 l2 l3 l4 l5.

Definition set_backgroundRgb (v : string) (this : UIStore) : UIStore :=
  let (p, ip, fr, fh, fd, _, bh, bd, cr, icc, l1, l2, l3, l4, l5) := this in
  Build_UIStore p ip fr fh fd v bh bd cr icc l1 l2 l3 l4 l5.

Definition set_backgroundHex (v : string) (this : UIStore) : UIStore :=
  let (p, ip, fr, fh, fd, br, _, bd, cr, icc, l1, l2, l3, l4, l5) := this in
  Build_UIStore p ip fr fh fd br v bd cr icc l1 l2 l3 l4 l5.

Definition set_backgroundIsDark (v : bool) (this : UIStore) : UIStore :=
  let (p, ip, fr, fh, fd, br, bh, _, cr, icc, l1, l2, l3, l4, l5) := this in
  Build_UIStore p ip fr fh fd br bh v cr icc l1 l2 l3 l4 l5.

Definition set_contrastRatio (v : string) (this : UIStore) : UIStore :=
  let (p, ip, fr, fh, fd, br, bh, bd, _, icc, l1, l2, l3, l4, l5) := this in
  Build_UIStore p ip fr fh fd br bh bd v icc l1 l2 l3 l4 l5.

Definition set_level143Regular (v : bool) (this : UIStore) : UIStore :=
  let (p, ip, fr, fh, fd, br, bh, bd, cr, icc, _, l2, l3, l4, l5) := this in
  Build_UIStore p ip fr fh fd br bh bd cr icc v l2 l3 l4 l5.

Definition set_level143Large (v : bool) (this : UIStore) : UIStore :=
  let (p, ip, fr, fh, fd, br, bh, bd, cr, icc, l1, _, l3, l4, l5) := this in
  Build_UIStore p ip fr fh fd br bh bd cr icc l1 v l3 l4 l5.

Definition set_level146Regular (v : bool) (this : UIStore) : UIStore :=
  let (p, ip, fr, fh, fd, br, bh, bd, cr, icc, l1, l2, _, l4, l5) := this in
  Build_UIStore p ip fr fh fd br bh bd cr icc l1 l2 v l4 l5.

Definition set_level146Large (v : bool) (this : UIStore) : UIStore :=
  let (p, ip, fr, fh, fd, br, bh, bd, cr, icc, l1, l2, l3, _, l5) := this in
  Build_UIStore p ip fr fh fd br bh bd cr icc l1 l2 l3 v l5.

Definition set_level1411 (v : bool) (this : UIStore) : UIStore :=
  let (p, ip, fr, fh, fd, br, bh, bd, cr, icc, l1, l2, l3, l4, _) := this in
  Build_UIStore p ip fr fh fd br bh bd cr icc l1 l2 l3 l4 v.

(** [export const UIStore = { ... }]: the store as created. *)
Definition UIStore_initial : UIStore := {|
  ui_platform := "unknown";
  isPicking := false;
  foregroundRgb := "";
  foregroundHex := "";
  foregroundIsDark := true;
  backgroundRgb := "";
  backgroundHex := "";
  backgroundIsDark := false;
  contrastRatio := "xxx:1";
  currentICCProfile := "Auto";
  level143Regular := true;
  level143Large := true;
  level146Regular := true;
  level146Large := true;
  level1411 := true
|}.

(** [async pickColor(fg)], as in [colorPickerStore]; the value the
    promise resolves with is of no declared type and not looked at. *)
Definition pickColor {Response : Type} (fg : bool)
  : AsyncMethod UIStore bool Response Empty_set := {|
  enter := fun this =>
    let this := set_isPicking true this in
    (this, fg);
  resume := fun o this =>
    let '(this, effects) :=
      match o with
      | Resolved _ => (this, [])
      | Rejected error => (this, [console_error "Error:" error])
      end in
    let this := set_isPicking false this in
    (this, effects)
|}.

(** [updateFromTauriStore(store)]: every assignment in source order, the
    three threshold tests last and each on its own. *)
Definition updateFromTauriStore (this : UIStore) (store : BackendStore) : UIStore :=
  let this := set_platform (platform store) this in
  let '(fr, fg, fb) := foreground_rgb store in
  let this :=
    set_foregroundRgb
      (Number_toString 10 (Num fr) ++ ", " ++ Number_toString 10 (Num fg) ++ ", "
       ++ Number_toString 10 (Num fb)) this in
  let this := set_foregroundHex (foreground_hex store) this in
  let this := set_foregroundIsDark (foreground_is_dark store) this in
  let '(br, bg, bb) := background_rgb store in
  let this :=
    set_backgroundRgb
      (Number_toString 10 (Num br) ++ ", " ++ Number_toString 10 (Num bg) ++ ", "
       ++ Number_toString 10 (Num bb)) this in
  let this := set_backgroundHex (background_hex store) this in
  let this := set_backgroundIsDark (background_is_dark store) this in
  let this :=
    set_contrastRatio
      (Number_toString 10 (Num (contrast_ratio_rounded store)) ++ ":1") this in
  let this := set_level143Regular true this in
  let this := set_level143Large true this in
  let this := set_level146Regular true this in
  let this := set_level146Large true this in
  let this := set_level1411 true this in
  let this :=
    if lt (Num (contrast_ratio_rounded store)) (Num 7) then
      set_level146Regular false this
    else this in
  let this :=
    if lt (Num (contrast_ratio_rounded store)) (Num (9 # 2)) then
      let this := set_level143Regular false this in
      set_level146Large false this
    else this in
  let this :=
    if lt (Num (contrast_ratio_rounded store)) (Num 3) then
      let this := set_level143Large false this in
      set_level1411 false this
    else this in
  this.

(** The five WCAG levels of a store, in the order of the interface. *)
Record Levels : Type := {
  L143Regular : bool;
  L143Large : bool;
  L146Regular : bool;
  L146Large : bool;
  L1411 : bool
}.

Definition levels (this : UIStore) : Levels := {|
  L143Regular := level143Regular this;
  L143Large := level143Large this;
  L146Regular := level146Regular this;
  L146Large := level146Large this;
  L1411 := level1411 this
|}.

(** The specification's direct form of the levels: each flag is
    [ratio >= threshold]. *)
Definition wcagFlags_direct (ratio : number) : Levels := {|
  L143Regular := ge ratio (Num (9 # 2));
  L143Large := ge ratio (Num 3);
  L146Regular := ge ratio (Num 7);
  L146Large := ge ratio (Num (9 # 2));
  L1411 := ge ratio (Num 3)
|}.

End WcagStore.

(* ================================================================= *)
(** ** Sample payloads for the [UIStore] *)

Module Backend.
Import WcagStore.

(** A payload for black on white that carries the given ratio field. *)
Definition payloadWithRatio (ratio : Q) : BackendStore := {|
  platform := "macos";
  foreground_rgb := (0, 0, 0)%Q;
  foreground_hex := "#000000";
  foreground_is_dark := true;
  background_rgb := (255, 255, 255)%Q;
  background_hex := "#FFFFFF";
  background_is_dark := false;
  contrast_ratio_rounded := ratio;
  continue_mode := false
|}.

End Backend.

(* ================================================================= *)
(** ** main.ts, the inline Alpine store [colorPicker]

    The revision in which [pickColor] itself reads the resolved colour. *)

Module InlineStore.

(** [interface ColorResult]; [pick_color] resolves with [null] in place of
    the object or of its [foreground] when nothing was picked. *)
Module ColorResult.
Record t : Type := {
  foreground : option rgb_tuple
}.
End ColorResult.

Record ColorPickerStore : Type := {
  isPicking : bool;
  resultVisible : bool;
  hex : string;
  rgb : string;
  backgroundColor : string;
  copiedVisible : bool
}.

Definition set_isPicking (v : bool) (this : ColorPickerStore) : ColorPickerStore :=
  let (_, rv, h, r, bc, cv) := this in Build_ColorPickerStore v rv h r bc cv.

Definition set_resultVisible (v : bool) (this : ColorPickerStore) : ColorPickerStore :=
  let (ip, _, h, r, bc, cv) := this in Build_ColorPickerStore ip v h r bc cv.

Definition set_hex (v : string) (this : ColorPickerStore) : ColorPickerStore :=
  let (ip, rv, _, r, bc, cv) := this in Build_ColorPickerStore ip rv v r bc cv.

Definition set_rgb (v : string) (this : ColorPickerStore) : ColorPickerStore :=
  let (ip, rv, h, _, bc, cv) := this in Build_ColorPickerStore ip rv h v bc cv.

Definition set_backgroundColor (v : string) (this : ColorPickerStore) : ColorPickerStore :=
  let (ip, rv, h, r, _, cv) := this in Build_ColorPickerStore ip rv h r v cv.

Definition set_copiedVisible (v : bool) (this : ColorPickerStore) : ColorPickerStore :=
  let (ip, rv, h, r, bc, _) := this in Build_ColorPickerStore ip rv h r bc v.

(** [Alpine.store('colorPicker', { ... })]: the store as created. *)
Definition colorPicker : ColorPickerStore := {|
  isPicking := false;
  resultVisible := false;
  hex := "";
  rgb := "";
  backgroundColor := "";
  copiedVisible := false
|}.

Inductive callback : Type :=
| hideCopied.

(** The file's own [rgbToHex], the same text as the one of utils.ts. *)
Definition rgbToHex (r g b : number) : string := Utils.rgbToHex r g b.

(** [async pickColor()]: always asks for the foreground
    ([{ fg: true }]); [if (color && color.foreground)] guards the four
    assignments. *)
Definition pickColor
  : AsyncMethod ColorPickerStore bool (option ColorResult.t) callback := {|
  enter := fun this =>
    let this := set_isPicking true this in
    (this, true);
  resume := fun o this =>
    let '(this, effects) :=
      match o with
      | Resolved color =>
          match color with
          | Some c =>
              match ColorResult.foreground c with
              | Some (r, g, b) =>
                  let hex := rgbToHex (Num r) (Num g) (Num b) in
                  let this := set_hex hex this in
                  let this :=
                    set_rgb
                      (Number_toString 10 (Num r) ++ ", "
                       ++ Number_toString 10 (Num g) ++ ", "
                       ++ Number_toString 10 (Num b)) this in
                  let this := set_backgroundColor hex this in
                  let this := set_resultVisible true this in
                  (this, [])
              | None => (this, [])
              end
          | None => (this, [])
          end
      | Rejected error => (this, [console_error "Error:" error])
      end in
    let this := set_isPicking false this in
    (this, effects)
|}.

(** [async copyHex()] *)
Definition copyHex : AsyncMethod ColorPickerStore string unit callback := {|
  enter := fun this => (this, hex this);
  resume := fun o this =>
    match o with
    | Resolved _ =>
        let this := set_copiedVisible true this in
        (this, [setTimeout hideCopied 1500])
    | Rejected err => (this, [console_error "Failed to copy:" err])
    end
|}.

End InlineStore.

(* ================================================================= *)
(** ** Vocabulary of the properties *)

Module Props.

(** A character [parseInt] accepts as a base-16 digit. *)
Definition isHexDigit (c : ascii) : bool :=
  match digitValue 16 c with
  | Some _ => true
  | None => false
  end.

Fixpoint allHexDigits (s : string) : bool :=
  match s with
  | EmptyString => true
  | String c rest => isHexDigit c && allHexDigits rest
  end.

(** A well-formed colour string: [#] and six hex digits of either case,
    seven characters in all. *)
Definition validHex (h : string) : bool :=
  match h with
  | String c rest =>
      (c =? "#")%char && (String.length rest =? 6)%nat && allHexDigits rest
  | EmptyString => false
  end.

(** A channel value as a Number: the integer [n]. *)
Definition byte (n : N) : number := Num (inject_Z (Z.of_N n)).

(** What a channel read by [hexToRgb] can be: [NaN], or an integer from
    -15 to 255. *)
Definition channelShape (x : number) : Prop :=
  x = NaN \/ exists z : Z, x = Num (inject_Z z) /\ (-15 <= z <= 255)%Z.



(** The sample a resolved [pick_color] carries for the requested role. *)
Definition sampleFor (fg : bool) (result : ColorPicker.ColorResult.t)
  : option rgb_tuple :=
  if fg then ColorPicker.ColorResult.foreground result
  else ColorPicker.ColorResult.background result.

(** The foreground sample of the inline store's [pick_color]; [None] when
    the call resolved with [null] or with a [null] foreground. *)
Definition inlineSample (color : option InlineStore.ColorResult.t)
  : option rgb_tuple :=
  match color with
  | Some c => InlineStore.ColorResult.foreground c
  | None => None
  end.

(** Every [bool] satisfies [P]; every character satisfies [P]. *)
Definition forall_bool (P : bool -> bool) : bool := P true && P false.

Definition forall_ascii (P : ascii -> bool) : bool :=
  forall_bool (fun b0 => forall_bool (fun b1 => forall_bool (fun b2 =>
  forall_bool (fun b3 => forall_bool (fun b4 => forall_bool (fun b5 =>
  forall_bool (fun b6 => forall_bool (fun b7 =>
    P (Ascii b0 b1 b2 b3 b4 b5 b6 b7))))))))).

(** Is [x] the integer [z]? *)
Definition isInteger (z : Z) (x : number) : bool :=
  match x with
  | Num q => (Qnum q =? z)%Z && (Qden q =? 1)%positive
  | _ => false
  end.

(** Is [x] of the shape [channelShape] describes? *)
Definition channelShapeb (x : number) : bool :=
  match x with
  | NaN => true
  | Infinity _ => false
  | Num q => (Qden q =? 1)%positive && (-15 <=? Qnum q)%Z && (Qnum q <=? 255)%Z
  end.

(** [hexToRgb]'s three channels formatted back by [rgbToHex]. *)
Definition hexToRgbToHex (h : string) : string :=
  let '(r, g, b) := Utils.hexToRgb_channels h in
  Utils.rgbToHex r g b.

(** Two hex digits, read by [parseInt] and written back as a byte, come
    back as the same digits in upper case. *)
Definition hexPairCheck (c1 c2 : ascii) : bool :=
  implb (isHexDigit c1 && isHexDigit c2)
    (Utils.hexByte (parseInt (String c1 (String c2 "")) 16)
     =? String (upperChar c1) (String (upperChar c2) "")).

(** A byte is written as two upper-case hex digits that read back as it. *)
Definition byteCheck (n : N) : bool :=
  match Utils.hexByte (byte n) with
  | String a (String b EmptyString) =>
      isHexDigit a && isHexDigit b
      && (upperChar a =? a)%char && (upperChar b =? b)%char
      && isInteger (Z.of_N n) (parseInt (String a (String b "")) 16)
  | _ => false
  end.

Definition allBytes : list N := map N.of_nat (seq 0 256).

(** Whatever one or two characters [parseInt] is given in base 16, the
    result has the shape of a channel. *)
Definition shapeCheck1 (c : ascii) : bool :=
  channelShapeb (parseInt (String c "") 16).

Definition shapeCheck2 (c1 c2 : ascii) : bool :=
  channelShapeb (parseInt (String c1 (String c2 "")) 16).

(** The colour fields of a [colorPickerStore], with [resultVisible]. *)
Definition colourState (this : ColorPicker.ColorPickerStore)
  : string * string * string * string * bool :=
  (ColorPicker.foreground this, ColorPicker.background this,
   ColorPicker.foregroundRgb this, ColorPicker.backgroundRgb this,
   ColorPicker.resultVisible this).

Definition isStoreUpdated {Payload : Type} (e : ColorPicker.event Payload) : bool :=
  match e with
  | ColorPicker.store_updated _ => true
  | _ => false
  end.

End Props.

Import Props.

(* ================================================================= *)
(** ** main.ts of the [UIStore] revision: start-up and listeners *)

Module Main.
Import WcagStore.

Definition set_currentICCProfile (v : string) (this : UIStore) : UIStore :=
  let (p, ip, fr, fh, fd, br, bh, bd, cr, _, l1, l2, l3, l4, l5) := this in
  Build_UIStore p ip fr fh fd br bh bd cr v l1 l2 l3 l4 l5.

(** A line written to the console: [console.log] or [console.error],
    with its label and its text. *)
Inductive level : Type :=
| log
| error.

Definition line : Type := (level * string * string)%type.

(** Step 1: [invoke('get_store')], then [updateFromTauriStore] of what it
    resolves with; a rejection is logged. *)
Definition loadInitialStore (o : outcome BackendStore) (this : UIStore)
  : UIStore * list line :=
  match o with
  | Resolved initialStore => (updateFromTauriStore this initialStore, [])
  | Rejected err => (this, [(error, "Error loading initial store:", err)])
  end.

(** Step 2: the listener of [store-updated]. *)
Definition onStoreUpdated (payload : BackendStore) (this : UIStore)
  : UIStore * list line :=
  (updateFromTauriStore this payload, []).

(** Step 3: the listener of [icc-profile-changed]. *)
Definition onIccProfileChanged (profileName : string) (this : UIStore)
  : UIStore * list line :=
  (set_currentICCProfile profileName this,
   [(log, "ICC Profile changed to:", profileName)]).

(** Step 4: [invoke('get_selected_icc_profile')], then
    [currentProfile || 'Auto']; a rejection is logged. *)
Definition loadInitialIccProfile (o : outcome (option string)) (this : UIStore)
  : UIStore * list line :=
  match o with
  | Resolved currentProfile =>
      let name :=
        match currentProfile with
        | Some s => if truthy (Some s) then s else "Auto"
        | None => "Auto"
        end in
      (set_currentICCProfile name this, [])
  | Rejected err => (this, [(error, "Error loading ICC profile:", err)])
  end.

(** The lines a [pickColor] settlement writes ([console.error] only). *)
Definition linesOf (effects : list (effect Empty_set)) : list line :=
  flat_map
    (fun e =>
       match e with
       | console_error label err => [(error, label, err)]
       | setTimeout _ _ => []
       end) effects.

(** Everything that writes to the [UIStore]. *)
Inductive event : Type :=
| pickColor_called (fg : bool)
| pickColor_settled (fg : bool) (o : outcome unit)
| initial_store_loaded (o : outcome BackendStore)
| store_updated (payload : BackendStore)
| icc_profile_changed (profileName : string)
| initial_icc_profile_loaded (o : outcome (option string)).

Record World : Type := {
  store : UIStore;
  console : list line
}.

Definition outcomeOf (r : UIStore * list line) (w : World) : World :=
  {| store := fst r; console := console w ++ snd r |}.

Definition dispatch (e : event) (w : World) : World :=
  match e with
  | pickColor_called fg =>
      outcomeOf (fst (enter (@pickColor unit fg) (store w)), []) w
  | pickColor_settled fg o =>
      let r := resume (@pickColor unit fg) o (store w) in
      outcomeOf (fst r, linesOf (snd r)) w
  | initial_store_loaded o => outcomeOf (loadInitialStore o (store w)) w
  | store_updated payload => outcomeOf (onStoreUpdated payload (store w)) w
  | icc_profile_changed profileName =>
      outcomeOf (onIccProfileChanged profileName (store w)) w
  | initial_icc_profile_loaded o =>
      outcomeOf (loadInitialIccProfile o (store w)) w
  end.

Fixpoint run (events : list event) (w : World) : World :=
  match events with
  | [] => w
  | e :: rest => run rest (dispatch e w)
  end.

(** The page as loaded: the store as created, nothing logged. *)
Definition loaded : World := {| store := UIStore_initial; console := [] |}.

End Main.

(* ================================================================= *)
(** ** The event loop around the inline store *)

Module InlineLoop.
Import InlineStore.

Definition runCallback (cb : callback) (this : ColorPickerStore) : ColorPickerStore :=
  match cb with
  | hideCopied => set_copiedVisible false this
  end.

Inductive event : Type :=
| pickColor_called
| pickColor_settled (o : outcome (option ColorResult.t))
| copyHex_called
| copyHex_settled (o : outcome unit)
| timer_elapsed.

Record World : Type := {
  store : ColorPickerStore;
  timers : list callback;
  console : list (string * string)
}.

Fixpoint perform (effects : list (effect callback)) (w : World) : World :=
  match effects with
  | [] => w
  | console_error label error :: rest =>
      perform rest {| store := store w; timers := timers w;
                      console := console w ++ [(label, error)] |}
  | setTimeout cb _ :: rest =>
      perform rest {| store := store w; timers := timers w ++ [cb];
                      console := console w |}
  end.

Definition settle (r : ColorPickerStore * list (effect callback)) (w : World) : World :=
  perform (snd r) {| store := fst r; timers := timers w; console := console w |}.

Definition dispatch (e : event) (w : World) : World :=
  match e with
  | pickColor_called =>
      {| store := fst (enter pickColor (store w));
         timers := timers w; console := console w |}
  | pickColor_settled o => settle (resume pickColor o (store w)) w
  | copyHex_called =>
      {| store := fst (enter copyHex (store w));
         timers := timers w; console := console w |}
  | copyHex_settled o => settle (resume copyHex o (store w)) w
  | timer_elapsed =>
      match timers w with
      | [] => w
      | cb :: rest =>
          {| store := runCallback cb (store w); timers := rest;
             console := console w |}
      end
  end.

Fixpoint run (events : list event) (w : World) : World :=
  match events with
  | [] => w
  | e :: rest => run rest (dispatch e w)
  end.

(** The page as loaded. *)
Definition loaded : World :=
  {| store := colorPicker; timers := []; console := [] |}.

End InlineLoop.

(* ================================================================= *)
(** ** Vocabulary of the further properties *)

Module Props2.

(** The display text of three channels: [`${r}, ${g}, ${b}`]. *)
Definition rgbText (r g b : number) : string :=
  Number_toString 10 r ++ ", " ++ Number_toString 10 g ++ ", " ++ Number_toString 10 b.

(** A role's hex and RGB texts belong together: both still empty, or the
    RGB text is [hexToRgb] of the hex. *)
Definition pairedTexts (hex rgbtext : string) : Prop :=
  (hex = "" /\ rgbtext = "") \/ (hex <> "" /\ rgbtext = Utils.hexToRgb hex).

(** The hex-payload store is consistent. *)
Definition hexConsistent (this : ColorPicker.ColorPickerStore) : Prop :=
  pairedTexts (ColorPicker.foreground this) (ColorPicker.foregroundRgb this) /\
  pairedTexts (ColorPicker.background this) (ColorPicker.backgroundRgb this) /\
  (ColorPicker.resultVisible this = true <->
   ColorPicker.foreground this <> "" \/ ColorPicker.background this <> "").

(** The RGB-payload store is consistent: nothing shown and all texts
    empty, or the result shown and each role's two texts written from one
    triple. *)
Definition rgbConsistent (this : ColorPicker.ColorPickerStore) : Prop :=
  (ColorPicker.resultVisible this = false /\
   ColorPicker.foreground this = "" /\ ColorPicker.foregroundRgb this = "" /\
   ColorPicker.background this = "" /\ ColorPicker.backgroundRgb this = "") \/
  (ColorPicker.resultVisible this = true /\
   (exists r g b : Q,
       ColorPicker.foreground this = Utils.rgbToHex (Num r) (Num g) (Num b) /\
       ColorPicker.foregroundRgb this = rgbText (Num r) (Num g) (Num b)) /\
   (exists r g b : Q,
       ColorPicker.background this = Utils.rgbToHex (Num r) (Num g) (Num b) /\
       ColorPicker.backgroundRgb this = rgbText (Num r) (Num g) (Num b))).

(** The inline store is consistent: the preview colour is the hex, and
    the result is shown exactly when a colour has been written, its two
    texts from one triple. *)
Definition inlineConsistent (this : InlineStore.ColorPickerStore) : Prop :=
  InlineStore.backgroundColor this = InlineStore.hex this /\
  ((InlineStore.resultVisible this = false /\
    InlineStore.hex this = "" /\ InlineStore.rgb this = "") \/
   (InlineStore.resultVisible this = true /\
    exists r g b : Q,
      InlineStore.hex this = Utils.rgbToHex (Num r) (Num g) (Num b) /\
      InlineStore.rgb this = rgbText (Num r) (Num g) (Num b))).

(** The WCAG levels are nested: 1.4.6 regular implies 1.4.3 regular,
    which implies 1.4.3 large; 1.4.6 large goes with 1.4.3 regular and
    1.4.11 with 1.4.3 large. *)
Definition nestedLevels (l : WcagStore.Levels) : Prop :=
  (WcagStore.L146Regular l = true -> WcagStore.L143Regular l = true) /\
  (WcagStore.L143Regular l = true -> WcagStore.L143Large l = true) /\
  WcagStore.L146Large l = WcagStore.L143Regular l /\
  WcagStore.L1411 l = WcagStore.L143Large l.

(** A hex payload and an RGB payload for the same two colours. *)
Definition hexPayload (f b : N * N * N) (cm : bool) : HexStore.ColorStore.t :=
  let '(fr, fg, fb) := f in
  let '(br, bg, bb) := b in
  {| HexStore.ColorStore.foreground := Some (Utils.rgbToHex (byte fr) (byte fg) (byte fb));
     HexStore.ColorStore.background := Some (Utils.rgbToHex (byte br) (byte bg) (byte bb));
     HexStore.ColorStore.continue_mode := cm |}.

Definition rgbPayload (f b : N * N * N) (cm : bool) : RgbStore.ColorStore.t :=
  let '(fr, fg, fb) := f in
  let '(br, bg, bb) := b in
  {| RgbStore.ColorStore.foreground_rgb :=
       (inject_Z (Z.of_N fr), inject_Z (Z.of_N fg), inject_Z (Z.of_N fb));
     RgbStore.ColorStore.background_rgb :=
       (inject_Z (Z.of_N br), inject_Z (Z.of_N bg), inject_Z (Z.of_N bb));
     RgbStore.ColorStore.continue_mode := cm |}.

Definition isByteTriple (t : N * N * N) : Prop :=
  let '(r, g, b) := t in (r < 256)%N /\ (g < 256)%N /\ (b < 256)%N.

(** Two hex digits read as a byte, and read the same in upper case. *)
Definition pairByteCheck (c1 c2 : ascii) : bool :=
  implb (isHexDigit c1 && isHexDigit c2)
    (match parseInt (String c1 (String c2 "")) 16 with
     | Num q =>
         (Qden q =? 1)%positive && (0 <=? Qnum q)%Z && (Qnum q <? 256)%Z
         && isInteger (Qnum q)
              (parseInt (String (upperChar c1) (String (upperChar c2) "")) 16)
         && isHexDigit (upperChar c1) && isHexDigit (upperChar c2)
     | _ => false
     end).

(** The settlements in a list of events that are rejections. *)
Definition isRejection {Payload : Type} (e : ColorPicker.event Payload) : bool :=
  match e with
  | ColorPicker.pickColor_settled _ (Rejected _) => true
  | ColorPicker.copyHex_settled _ (Rejected _) => true
  | _ => false
  end.

(** The world of the [colorPickerStore] as the page is loaded. *)
Definition pickerLoaded : ColorPicker.World :=
  {| ColorPicker.store := ColorPicker.colorPickerStore;
     ColorPicker.timers := []; ColorPicker.console := [] |}.

(** Two [UIStore]s that agree on every field but [currentICCProfile]. *)
Definition sameUIButIccProfile (a b : WcagStore.UIStore) : Prop :=
  WcagStore.ui_platform a = WcagStore.ui_platform b /\
  WcagStore.isPicking a = WcagStore.isPicking b /\
  WcagStore.foregroundRgb a = WcagStore.foregroundRgb b /\
  WcagStore.foregroundHex a = WcagStore.foregroundHex b /\
  WcagStore.foregroundIsDark a = WcagStore.foregroundIsDark b /\
  WcagStore.backgroundRgb a = WcagStore.backgroundRgb b /\
  WcagStore.backgroundHex a = WcagStore.backgroundHex b /\
  WcagStore.backgroundIsDark a = WcagStore.backgroundIsDark b /\
  WcagStore.contrastRatio a = WcagStore.contrastRatio b /\
  WcagStore.levels a = WcagStore.levels b.

(** The events of the [UIStore] page that hand a payload to
    [updateFromTauriStore]. *)
Definition carriesPayload (e : Main.event) : bool :=
  match e with
  | Main.initial_store_loaded (Resolved _) => true
  | Main.store_updated _ => true
  | _ => false
  end.

(** What the [UIStore] shows of the two colours and their contrast. *)
Definition contrastState (this : WcagStore.UIStore)
  : string * string * string * bool * string * string * bool * string * WcagStore.Levels :=
  (WcagStore.ui_platform this, WcagStore.foregroundRgb this,
   WcagStore.foregroundHex this, WcagStore.foregroundIsDark this,
   WcagStore.backgroundRgb this, WcagStore.backgroundHex this,
   WcagStore.backgroundIsDark this, WcagStore.contrastRatio this,
   WcagStore.levels this).


(** The text before the first [", "] of a string, and the text after it
    if there is one. *)
Fixpoint splitComma (s : string) : string * option string :=
  match s with
  | EmptyString => (EmptyString, None)
  | String c rest =>
      match rest with
      | EmptyString => (String c EmptyString, None)
      | String c2 rest2 =>
          if ((c =? ",")%char && (c2 =? " ")%char)%bool
          then (EmptyString, Some rest2)
          else let (a, b) := splitComma rest in (String c a, b)
      end
  end.

(** The three channel values of a display text ['r, g, b']: the parts
    between the [", "] separators, each read as a decimal number by
    [parseInt(part, 10)]; [None] when there are no three parts. *)
Definition readRgbText (text : string) : option (number * number * number) :=
  let (first, rest1) := splitComma text in
  match rest1 with
  | None => None
  | Some t1 =>
      let (second, rest2) := splitComma t1 in
      match rest2 with
      | None => None
      | Some third => Some (parseInt first 10, parseInt second 10, parseInt third 10)
      end
  end.

(** Hex to RGB to hex: the text [hexToRgb] returns, its three channel
    values formatted back by [rgbToHex]. *)
Definition hexToRgbThenRgbToHex (h : string) : option string :=
  match readRgbText (Utils.hexToRgb h) with
  | Some (r, g, b) => Some (Utils.rgbToHex r g b)
  | None => None
  end.

Fixpoint noComma (s : string) : bool :=
  match s with
  | EmptyString => true
  | String c rest => negb (c =? ",")%char && noComma rest
  end.

(** The decimal text of a byte has no comma and reads back as the byte. *)
Definition decimalByteCheck (n : N) : bool :=
  noComma (Number_toString 10 (byte n))
  && isInteger (Z.of_N n) (parseInt (Number_toString 10 (byte n)) 10).

End Props2.

Import Props2.

(* ================================================================= *)
(** ** Properties of the WCAG levels ([UIStore] revision) *)

Section WcagLevels.
Import WcagStore.

(** Each level after an update, as one comparison on the payload's ratio. *)
Lemma levels_updateFromTauriStore (this : UIStore) (store : BackendStore) :
  levels (updateFromTauriStore this store) =
  {| L143Regular := Qle_bool (9 # 2) (contrast_ratio_rounded store);
     L143Large := Qle_bool 3 (contrast_ratio_rounded store);
     L146Regular := Qle_bool 7 (contrast_ratio_rounded store);
     L146Large := Qle_bool (9 # 2) (contrast_ratio_rounded store);
     L1411 := Qle_bool 3 (contrast_ratio_rounded store) |}.
Proof.
  destruct this, store as [p [[fr fg] fb] fh fd [[br bg] bb] bh bd ratio cm].
  unfold updateFromTauriStore, lt, IsLessThan; cbn [contrast_ratio_rounded
    platform foreground_rgb foreground_hex foreground_is_dark background_rgb
    background_hex background_is_dark].
  destruct (Qle_bool 7 ratio), (Qle_bool (9 # 2) ratio), (Qle_bool 3 ratio);
    reflexivity.
Qed.

(** The ratio shown is the payload's ratio field, printed. *)
Lemma contrastRatio_updateFromTauriStore (this : UIStore) (store : BackendStore) :
  contrastRatio (updateFromTauriStore this store) =
  Number_toString 10 (Num (contrast_ratio_rounded store)) ++ ":1".
Proof.
  destruct this, store as [p [[fr fg] fb] fh fd [[br bg] bb] bh bd ratio cm].
  unfold updateFromTauriStore, lt, IsLessThan; cbn [contrast_ratio_rounded
    platform foreground_rgb foreground_hex foreground_is_dark background_rgb
    background_hex background_is_dark].
  destruct (Qle_bool 7 ratio), (Qle_bool (9 # 2) ratio), (Qle_bool 3 ratio);
    reflexivity.
Qed.

Lemma Qle_bool_mono (t p q : Q) :
  Qle_bool p q = true -> Qle_bool t p = true -> Qle_bool t q = true.
Proof.
  rewrite !Qle_bool_iff. intros Hpq Htp. exact (Qle_trans _ _ _ Htp Hpq).
Qed.

Lemma Qle_bool_eq_r (t p q : Q) : p == q -> Qle_bool t p = Qle_bool t q.
Proof.
  intros E. destruct (Qle_bool t q) eqn:H.
  - apply Qle_bool_iff. apply Qle_bool_iff in H. rewrite E. exact H.
  - destruct (Qle_bool t p) eqn:H'; [|reflexivity].
    apply Qle_bool_iff in H'. rewrite E in H'. apply Qle_bool_iff in H'.
    congruence.
Qed.

(** C1. For every backend store payload, the five WCAG flags that
    [updateFromTauriStore] leaves in the store after its staged tests (all
    five set to true, then cleared below 7, below 4.5 and below 3) are the
    flags computed directly as [ratio >= threshold]. *)
Theorem wcag_staged_equals_direct (this : UIStore) (store : BackendStore) :
  levels (updateFromTauriStore this store) =
  wcagFlags_direct (Num (contrast_ratio_rounded store)).
Proof.
  rewrite levels_updateFromTauriStore.
  unfold wcagFlags_direct, ge, IsLessThan.
  destruct (Qle_bool 7 _), (Qle_bool (9 # 2) _), (Qle_bool 3 _); reflexivity.
Qed.

(** C7. The flags are monotonic in the ratio: when the ratio of one
    payload is at most that of another, every flag set after the first
    update is set after the second; at ratio 21 all five flags are true
    and at ratio 1 all five are false. *)
Theorem wcag_flags_monotonic :
  (forall (this1 this2 : UIStore) (s1 s2 : BackendStore),
      le (Num (contrast_ratio_rounded s1)) (Num (contrast_ratio_rounded s2)) = true ->
      let a := updateFromTauriStore this1 s1 in
      let b := updateFromTauriStore this2 s2 in
      (level143Regular a = true -> level143Regular b = true) /\
      (level143Large a = true -> level143Large b = true) /\
      (level146Regular a = true -> level146Regular b = true) /\
      (level146Large a = true -> level146Large b = true) /\
      (level1411 a = true -> level1411 b = true)) /\
  (forall (this : UIStore) (s : BackendStore),
      contrast_ratio_rounded s == 21 ->
      levels (updateFromTauriStore this s) =
      {| L143Regular := true; L143Large := true; L146Regular := true;
         L146Large := true; L1411 := true |}) /\
  (forall (this : UIStore) (s : BackendStore),
      contrast_ratio_rounded s == 1 ->
      levels (updateFromTauriStore this s) =
      {| L143Regular := false; L143Large := false; L146Regular := false;
         L146Large := false; L1411 := false |}).
Proof.
  split; [|split].
  - intros this1 this2 s1 s2 Hle a b.
    pose proof (levels_updateFromTauriStore this1 s1) as Ha.
    pose proof (levels_updateFromTauriStore this2 s2) as Hb.
    fold a in Ha. fold b in Hb.
    unfold levels in Ha, Hb. injection Ha as A1 A2 A3 A4 A5.
    injection Hb as B1 B2 B3 B4 B5.
    unfold le, IsLessThan in Hle.
    assert (Hq : Qle_bool (contrast_ratio_rounded s1) (contrast_ratio_rounded s2) = true).
    { destruct (Qle_bool (contrast_ratio_rounded s1) (contrast_ratio_rounded s2));
        [reflexivity | discriminate Hle]. }
    rewrite A1, A2, A3, A4, A5, B1, B2, B3, B4, B5.
    repeat split; apply Qle_bool_mono; exact Hq.
  - intros this s E. rewrite levels_updateFromTauriStore.
    rewrite !(Qle_bool_eq_r _ _ _ E). reflexivity.
  - intros this s E. rewrite levels_updateFromTauriStore.
    rewrite !(Qle_bool_eq_r _ _ _ E). reflexivity.
Qed.

End WcagLevels.

Section WcagBoundary.
Import WcagStore.



Lemma levels_at_ratio_5 :
  levels (updateFromTauriStore UIStore_initial (Backend.payloadWithRatio (5 # 1))) =
  {| L143Regular := true; L143Large := true; L146Regular := false;
     L146Large := true; L1411 := true |}.
Proof. reflexivity. Qed.

Lemma wcag_flags_monotonic_witness :
  (level143Large (updateFromTauriStore UIStore_initial (Backend.payloadWithRatio 3)) = true ->
   level143Large (updateFromTauriStore UIStore_initial (Backend.payloadWithRatio 5)) = true) /\
  levels (updateFromTauriStore UIStore_initial (Backend.payloadWithRatio 21)) =
  {| L143Regular := true; L143Large := true; L146Regular := true;
     L146Large := true; L1411 := true |} /\
  levels (updateFromTauriStore UIStore_initial (Backend.payloadWithRatio 1)) =
  {| L143Regular := false; L143Large := false; L146Regular := false;
     L146Large := false; L1411 := false |}.
Proof.
  split; [|split].
  - apply (proj1 wcag_flags_monotonic UIStore_initial UIStore_initial
             (Backend.payloadWithRatio 3) (Backend.payloadWithRatio 5)).
    reflexivity.
  - apply (proj1 (proj2 wcag_flags_monotonic)). reflexivity.
  - apply (proj2 (proj2 wcag_flags_monotonic)). reflexivity.
Defined.

End WcagBoundary.

(* ================================================================= *)
(** ** Properties of utils.ts *)

Section UtilsProperties.
Import Utils.

Example hexToRgb_white : hexToRgb "#FFFFFF" = "255, 255, 255".
Proof. reflexivity. Qed.

Example hexToRgb_lower_case : hexToRgb "#0a141e" = "10, 20, 30".
Proof. reflexivity. Qed.

Example rgbToHex_pads_and_raises : rgbToHex (byte 10) (byte 20) (byte 30) = "#0A141E".
Proof. reflexivity. Qed.

Example parseInt_sign_prefix_and_stop :
  parseInt "-f" 16 = Num (inject_Z (-15)) /\ parseInt "0x" 16 = NaN /\
  parseInt "7g" 16 = Num (inject_Z 7) /\ parseInt " a" 16 = Num (inject_Z 10).
Proof. repeat split. Qed.

Lemma forall_bool_spec (P : bool -> bool) :
  forall_bool P = true -> forall b, P b = true.
Proof.
  unfold forall_bool. intros H b.
  apply andb_prop in H. destruct H as [Ht Hf]. destruct b; assumption.
Qed.

Lemma forall_ascii_spec (P : ascii -> bool) :
  forall_ascii P = true -> forall c, P c = true.
Proof.
  intros H [b0 b1 b2 b3 b4 b5 b6 b7]. unfold forall_ascii in H.
  pose proof (forall_bool_spec _ H b0) as H0. cbv beta in H0.
  pose proof (forall_bool_spec _ H0 b1) as H1. cbv beta in H1.
  pose proof (forall_bool_spec _ H1 b2) as H2. cbv beta in H2.
  pose proof (forall_bool_spec _ H2 b3) as H3. cbv beta in H3.
  pose proof (forall_bool_spec _ H3 b4) as H4. cbv beta in H4.
  pose proof (forall_bool_spec _ H4 b5) as H5. cbv beta in H5.
  pose proof (forall_bool_spec _ H5 b6) as H6. cbv beta in H6.
  exact (forall_bool_spec _ H6 b7).
Qed.

Lemma hexPairCheck_all :
  forall_ascii (fun c1 => forall_ascii (fun c2 => hexPairCheck c1 c2)) = true.
Proof. vm_compute. reflexivity. Qed.

(** Reading two hex digits and writing the byte back gives the digits in
    upper case. *)
Lemma hexByte_parseInt (c1 c2 : ascii) :
  isHexDigit c1 = true -> isHexDigit c2 = true ->
  hexByte (parseInt (String c1 (String c2 "")) 16) =
  String (upperChar c1) (String (upperChar c2) "").
Proof.
  intros H1 H2.
  pose proof (forall_ascii_spec _ (forall_ascii_spec _ hexPairCheck_all c1) c2) as H.
  unfold hexPairCheck in H. rewrite H1, H2 in H. cbn [andb implb] in H.
  apply String.eqb_eq. exact H.
Qed.

Lemma allBytes_complete (n : N) : (n < 256)%N -> In n allBytes.
Proof.
  intros H. unfold allBytes. apply in_map_iff. exists (N.to_nat n). split.
  - apply N2Nat.id.
  - apply in_seq. lia.
Qed.

Lemma byteCheck_all : forallb byteCheck allBytes = true.
Proof. vm_compute. reflexivity. Qed.

Lemma isInteger_eq (z : Z) (x : number) :
  isInteger z x = true -> x = Num (inject_Z z).
Proof.
  destruct x as [| |[n d]]; unfold isInteger; try discriminate.
  cbn [Qnum Qden]. intros H. apply andb_prop in H. destruct H as [Hn Hd].
  apply Z.eqb_eq in Hn. apply Pos.eqb_eq in Hd. subst. reflexivity.
Qed.

(** What [hexByte] makes of a byte. *)
Lemma hexByte_byte (n : N) :
  (n < 256)%N ->
  exists a b : ascii,
    hexByte (byte n) = String a (String b "") /\
    isHexDigit a = true /\ isHexDigit b = true /\
    upperChar a = a /\ upperChar b = b /\
    parseInt (String a (String b "")) 16 = byte n.
Proof.
  intros H.
  pose proof (proj1 (forallb_forall _ _) byteCheck_all n (allBytes_complete n H)) as C.
  unfold byteCheck in C.
  destruct (hexByte (byte n)) as [|a [|b [|? ?]]]; try discriminate C.
  exists a, b.
  repeat (apply andb_prop in C; destruct C as [C ?]).
  repeat split; try assumption.
  - apply Ascii.eqb_eq; assumption.
  - apply Ascii.eqb_eq; assumption.
  - apply isInteger_eq; assumption.
Qed.

(** The three channels [hexToRgb] reads from a valid string, formatted
    back by [rgbToHex], give the string in upper case; and three bytes
    written by [rgbToHex] are read back by [hexToRgb]. *)
Lemma channels_roundtrip :
  (forall h : string, validHex h = true -> hexToRgbToHex h = toUpperCase h) /\
  (forall r g b : N, (r < 256)%N -> (g < 256)%N -> (b < 256)%N ->
      validHex (rgbToHex (byte r) (byte g) (byte b)) = true /\
      toUpperCase (rgbToHex (byte r) (byte g) (byte b)) = rgbToHex (byte r) (byte g) (byte b) /\
      hexToRgb_channels (rgbToHex (byte r) (byte g) (byte b)) = (byte r, byte g, byte b) /\
      hexToRgbToHex (rgbToHex (byte r) (byte g) (byte b)) = rgbToHex (byte r) (byte g) (byte b)).
Proof.
  split.
  - intros h H.
    destruct h as [|c0 [|c1 [|c2 [|c3 [|c4 [|c5 [|c6 [|c7 h]]]]]]]];
      cbn in H; try discriminate H;
      try (rewrite ?andb_false_r in H; discriminate H).
    repeat (apply andb_prop in H; destruct H as [H ?]).
    repeat match goal with
           | X : (_ && _)%bool = true |- _ => apply andb_prop in X; destruct X
           end.
    apply Ascii.eqb_eq in H. subst c0.
    unfold hexToRgbToHex, hexToRgb_channels, slice, rgbToHex.
    cbn [substring Nat.sub].
    rewrite !hexByte_parseInt by assumption.
    reflexivity.
  - intros r g b Hr Hg Hb.
    destruct (hexByte_byte r Hr) as (r1 & r2 & Er & Hr1 & Hr2 & Ur1 & Ur2 & Pr).
    destruct (hexByte_byte g Hg) as (g1 & g2 & Eg & Hg1 & Hg2 & Ug1 & Ug2 & Pg).
    destruct (hexByte_byte b Hb) as (b1 & b2 & Eb & Hb1 & Hb2 & Ub1 & Ub2 & Pb).
    assert (Hch : hexToRgb_channels (rgbToHex (byte r) (byte g) (byte b)) =
                  (byte r, byte g, byte b)).
    { unfold hexToRgb_channels, rgbToHex, slice. rewrite Er, Eg, Eb.
      cbn [append substring Nat.sub]. rewrite Pr, Pg, Pb. reflexivity. }
    repeat split.
    + unfold rgbToHex. rewrite Er, Eg, Eb. cbn [append validHex allHexDigits String.length].
      rewrite Hr1, Hr2, Hg1, Hg2, Hb1, Hb2. reflexivity.
    + unfold rgbToHex. rewrite Er, Eg, Eb. cbn [append toUpperCase].
      rewrite Ur1, Ur2, Ug1, Ug2, Ub1, Ub2. reflexivity.
    + exact Hch.
    + unfold hexToRgbToHex. rewrite Hch. reflexivity.
Qed.

Lemma shapeCheck1_all : forall_ascii shapeCheck1 = true.
Proof. vm_compute. reflexivity. Qed.

Lemma shapeCheck2_all :
  forall_ascii (fun c1 => forall_ascii (fun c2 => shapeCheck2 c1 c2)) = true.
Proof. vm_compute. reflexivity. Qed.

Lemma channelShapeb_sound (x : number) : channelShapeb x = true -> channelShape x.
Proof.
  destruct x as [| neg |[n d]]; unfold channelShapeb, channelShape.
  - intros _. left. reflexivity.
  - discriminate.
  - cbn [Qnum Qden]. intros H.
    apply andb_prop in H. destruct H as [H Hhi].
    apply andb_prop in H. destruct H as [Hd Hlo].
    apply Pos.eqb_eq in Hd. apply Z.leb_le in Hlo, Hhi. subst d.
    right. exists n. split; [reflexivity | lia].
Qed.

(** [parseInt] on at most two characters. *)
Lemma parseInt_short_shape (s : string) :
  (String.length s <= 2)%nat -> channelShape (parseInt s 16).
Proof.
  destruct s as [|c1 [|c2 [|c3 s]]]; cbn [String.length]; intros H.
  - left. reflexivity.
  - apply channelShapeb_sound. exact (forall_ascii_spec _ shapeCheck1_all c1).
  - apply channelShapeb_sound.
    exact (forall_ascii_spec _ (forall_ascii_spec _ shapeCheck2_all c1) c2).
  - lia.
Qed.

Lemma substring_length_le (n m : nat) (s : string) :
  (String.length (substring n m s) <= m)%nat.
Proof.
  revert n m. induction s as [|c s IH]; intros n m.
  - destruct n, m; cbn; lia.
  - destruct n as [|n].
    + destruct m as [|m]; cbn; [lia|]. specialize (IH 0%nat m). lia.
    + cbn. apply IH.
Qed.

Lemma substring_append_within (n m : nat) (s t : string) :
  (n + m <= String.length s)%nat -> substring n m (s ++ t) = substring n m s.
Proof.
  revert n m. induction s as [|c s IH]; intros n m H; cbn [String.length] in H.
  - assert (n = 0%nat) by lia. assert (m = 0%nat) by lia. subst.
    destruct t; reflexivity.
  - destruct n as [|n].
    + destruct m as [|m]; cbn; [reflexivity|]. f_equal. apply (IH 0%nat m). lia.
    + cbn. apply IH. lia.
Qed.

(** C9, as the code has it.  [hexToRgb] validates nothing and signals no
    error: it never looks at the first character, nor at anything after
    the seventh, and for every input whatever it returns the display
    string of three channels, each of them [NaN] or an integer from -15
    to 255, read by [parseInt] from the two characters of its slice. *)
Theorem hexToRgb_validates_nothing :
  (forall (c c' : ascii) (rest : string),
      hexToRgb (String c rest) = hexToRgb (String c' rest)) /\
  (forall h suffix : string,
      String.length h = 7%nat -> hexToRgb (h ++ suffix) = hexToRgb h) /\
  (forall hex : string,
      exists r g b : number,
        hexToRgb_channels hex = (r, g, b) /\
        channelShape r /\ channelShape g /\ channelShape b /\
        hexToRgb hex =
        Number_toString 10 r ++ ", " ++ Number_toString 10 g ++ ", " ++ Number_toString 10 b).
Proof.
  split; [|split].
  - intros c c' rest. reflexivity.
  - intros h suffix H. unfold hexToRgb, hexToRgb_channels, slice.
    rewrite !substring_append_within by (rewrite H; cbn; lia). reflexivity.
  - intros hex.
    exists (parseInt (slice hex 1 3) 16), (parseInt (slice hex 3 5) 16),
           (parseInt (slice hex 5 7) 16).
    split; [reflexivity|].
    repeat split; try (apply parseInt_short_shape; unfold slice;
                       apply substring_length_le).
Qed.

Lemma hexToRgb_validates_nothing_witness :
  hexToRgb ("#FFFFFF" ++ "00") = hexToRgb "#FFFFFF".
Proof.
  apply (proj1 (proj2 hexToRgb_validates_nothing) "#FFFFFF" "00"). reflexivity.
Defined.

(** C9 as stated fails: these strings are malformed (no [#], a digit
    short; not hex digits; nine characters), and [hexToRgb] returns a
    colour text for each instead of an error. *)
Lemma hexToRgb_accepts_malformed :
  validHex "FFFFFF" = false /\ hexToRgb "FFFFFF" = "255, 255, 15" /\
  validHex "#GGGGGG" = false /\ hexToRgb "#GGGGGG" = "NaN, NaN, NaN" /\
  validHex "#FFFFFF00" = false /\ hexToRgb "#FFFFFF00" = "255, 255, 255".
Proof. vm_compute. repeat split. Qed.

End UtilsProperties.

(* ================================================================= *)
(** ** Properties of [updateFromTauriStore] *)

Section UpdateProperties.

Lemma HexStore_update_idempotent
  (this : ColorPicker.ColorPickerStore) (s : HexStore.ColorStore.t) :
  HexStore.updateFromTauriStore (HexStore.updateFromTauriStore this s) s =
  HexStore.updateFromTauriStore this s.
Proof.
  destruct this, s as [[f|] [b|] cm]; unfold HexStore.updateFromTauriStore;
    cbn [HexStore.ColorStore.foreground HexStore.ColorStore.background];
    try destruct (truthy (Some f)); try destruct (truthy (Some b)); reflexivity.
Qed.

Lemma RgbStore_update_idempotent
  (this : ColorPicker.ColorPickerStore) (s : RgbStore.ColorStore.t) :
  RgbStore.updateFromTauriStore (RgbStore.updateFromTauriStore this s) s =
  RgbStore.updateFromTauriStore this s.
Proof.
  destruct this, s as [[[fr fg] fb] [[br bg] bb] cm]. reflexivity.
Qed.

Lemma WcagStore_update_idempotent
  (this : WcagStore.UIStore) (s : WcagStore.BackendStore) :
  WcagStore.updateFromTauriStore (WcagStore.updateFromTauriStore this s) s =
  WcagStore.updateFromTauriStore this s.
Proof.
  destruct this, s as [p [[fr fg] fb] fh fd [[br bg] bb] bh bd ratio cm].
  unfold WcagStore.updateFromTauriStore;
    cbn [WcagStore.contrast_ratio_rounded WcagStore.platform
         WcagStore.foreground_rgb WcagStore.foreground_hex
         WcagStore.foreground_is_dark WcagStore.background_rgb
         WcagStore.background_hex WcagStore.background_is_dark].
  destruct (lt (Num ratio) (Num 7)), (lt (Num ratio) (Num (9 # 2))),
    (lt (Num ratio) (Num 3)); reflexivity.
Qed.

(** C5. [updateFromTauriStore] is idempotent in each revision of the
    store: for every payload and every store, updating twice with the
    same payload leaves exactly the store of the first update. *)
Theorem updateFromTauriStore_idempotent :
  (forall (this : ColorPicker.ColorPickerStore) (s : HexStore.ColorStore.t),
      HexStore.updateFromTauriStore (HexStore.updateFromTauriStore this s) s =
      HexStore.updateFromTauriStore this s) /\
  (forall (this : ColorPicker.ColorPickerStore) (s : RgbStore.ColorStore.t),
      RgbStore.updateFromTauriStore (RgbStore.updateFromTauriStore this s) s =
      RgbStore.updateFromTauriStore this s) /\
  (forall (this : WcagStore.UIStore) (s : WcagStore.BackendStore),
      WcagStore.updateFromTauriStore (WcagStore.updateFromTauriStore this s) s =
      WcagStore.updateFromTauriStore this s).
Proof.
  split; [|split].
  - exact HexStore_update_idempotent.
  - exact RgbStore_update_idempotent.
  - exact WcagStore_update_idempotent.
Qed.

(** C4. A push in which a colour role is absent leaves that role's hex
    and RGB texts as they were; and on the store as created, a push with
    foreground ["#FFFFFF"] and no background leaves the background
    untouched, shows the result and sets the foreground texts. *)
Theorem partial_push_keeps_absent_role :
  (forall (this : ColorPicker.ColorPickerStore) (s : HexStore.ColorStore.t),
      HexStore.ColorStore.foreground s = None ->
      ColorPicker.foreground (HexStore.updateFromTauriStore this s) =
        ColorPicker.foreground this /\
      ColorPicker.foregroundRgb (HexStore.updateFromTauriStore this s) =
        ColorPicker.foregroundRgb this) /\
  (forall (this : ColorPicker.ColorPickerStore) (s : HexStore.ColorStore.t),
      HexStore.ColorStore.background s = None ->
      ColorPicker.background (HexStore.updateFromTauriStore this s) =
        ColorPicker.background this /\
      ColorPicker.backgroundRgb (HexStore.updateFromTauriStore this s) =
        ColorPicker.backgroundRgb this) /\
  HexStore.updateFromTauriStore ColorPicker.colorPickerStore
    {| HexStore.ColorStore.foreground := Some "#FFFFFF";
       HexStore.ColorStore.background := None;
       HexStore.ColorStore.continue_mode := false |} =
  {| ColorPicker.isPicking := false;
     ColorPicker.resultVisible := true;
     ColorPicker.foreground := "#FFFFFF";
     ColorPicker.background := "";
     ColorPicker.foregroundRgb := "255, 255, 255";
     ColorPicker.backgroundRgb := "";
     ColorPicker.copiedVisible := false |}.
Proof.
  split; [|split].
  - intros this [f b cm] H. cbn in H. subst f.
    destruct this, b as [b|]; unfold HexStore.updateFromTauriStore;
      cbn [HexStore.ColorStore.foreground HexStore.ColorStore.background];
      try destruct (truthy (Some b)); split; reflexivity.
  - intros this [f b cm] H. cbn in H. subst b.
    destruct this, f as [f|]; unfold HexStore.updateFromTauriStore;
      cbn [HexStore.ColorStore.foreground HexStore.ColorStore.background];
      try destruct (truthy (Some f)); split; reflexivity.
  - reflexivity.
Qed.

Lemma partial_push_keeps_absent_role_witness :
  ColorPicker.background
    (HexStore.updateFromTauriStore
       (HexStore.updateFromTauriStore ColorPicker.colorPickerStore
          {| HexStore.ColorStore.foreground := Some "#000000";
             HexStore.ColorStore.background := Some "#FFFFFF";
             HexStore.ColorStore.continue_mode := false |})
       {| HexStore.ColorStore.foreground := Some "#112233";
          HexStore.ColorStore.background := None;
          HexStore.ColorStore.continue_mode := false |}) = "#FFFFFF".
Proof.
  refine (eq_trans
    (proj1 (proj1 (proj2 partial_push_keeps_absent_role) _
       {| HexStore.ColorStore.foreground := Some "#112233";
          HexStore.ColorStore.background := None;
          HexStore.ColorStore.continue_mode := false |} eq_refl)) _).
  reflexivity.
Defined.

End UpdateProperties.

(* ================================================================= *)
(** ** Properties of [pickColor] and of the event loop *)

Section PickProperties.

(** C6. When [pick_color] resolves without a sample for the requested
    role, the call leaves the role's displayed texts and [resultVisible]
    as they were and ends with [isPicking] false: in the inline store,
    where the resolved colour is read (the role is always the
    foreground), and in [colorPickerStore], where it is not read. *)
Theorem cancelled_pick_is_noop :
  (forall (this : InlineStore.ColorPickerStore)
          (color : option InlineStore.ColorResult.t),
      inlineSample color = None ->
      let after := fst (call InlineStore.pickColor (fun s => s) (Resolved color) this) in
      InlineStore.hex after = InlineStore.hex this /\
      InlineStore.rgb after = InlineStore.rgb this /\
      InlineStore.backgroundColor after = InlineStore.backgroundColor this /\
      InlineStore.resultVisible after = InlineStore.resultVisible this /\
      InlineStore.isPicking after = false) /\
  (forall (fg : bool) (this : ColorPicker.ColorPickerStore)
          (result : ColorPicker.ColorResult.t),
      sampleFor fg result = None ->
      let after :=
        fst (call (ColorPicker.pickColor fg) (fun s => s) (Resolved result) this) in
      colourState after = colourState this /\
      ColorPicker.isPicking after = false).
Proof.
  split.
  - intros this color H after. subst after.
    destruct this. destruct color as [[[[[r g] b]|]]|]; cbn in H;
      try discriminate H; repeat split; reflexivity.
  - intros fg this result _ after. subst after. destruct this.
    split; reflexivity.
Qed.

Lemma cancelled_pick_is_noop_witness :
  InlineStore.hex
    (fst (call InlineStore.pickColor (fun s => s) (Resolved None)
            (InlineStore.set_hex "#ABCDEF" InlineStore.colorPicker))) = "#ABCDEF" /\
  ColorPicker.isPicking
    (fst (call (ColorPicker.pickColor true) (fun s => s)
            (Resolved {| ColorPicker.ColorResult.foreground := None;
                         ColorPicker.ColorResult.background := None;
                         ColorPicker.ColorResult.continue_mode := false |})
            ColorPicker.colorPickerStore)) = false.
Proof.
  split.
  - exact (proj1 (proj1 cancelled_pick_is_noop
             (InlineStore.set_hex "#ABCDEF" InlineStore.colorPicker) None eq_refl)).
  - exact (proj2 (proj2 cancelled_pick_is_noop true ColorPicker.colorPickerStore
             {| ColorPicker.ColorResult.foreground := None;
                ColorPicker.ColorResult.background := None;
                ColorPicker.ColorResult.continue_mode := false |} eq_refl)).
Defined.

End PickProperties.

Section EventLoopProperties.
Import ColorPicker.

Variable Payload : Type.
Variable update : ColorPickerStore -> Payload -> ColorPickerStore.

Lemma perform_store (effects : list (effect callback)) (w : World) :
  store (perform effects w) = store w.
Proof.
  revert w. induction effects as [|[label error|cb ms] rest IH]; intros w; cbn.
  - reflexivity.
  - rewrite IH. reflexivity.
  - rewrite IH. reflexivity.
Qed.

(** No event but [store-updated] writes a colour field or [resultVisible]. *)
Lemma dispatch_colourState (e : event Payload) (w : World) :
  isStoreUpdated e = false ->
  colourState (store (dispatch update e w)) = colourState (store w).
Proof.
  destruct w as [[ip rv f b fr br cv] ts log].
  destruct e as [fg|fg [r|err]|isf|isf [u|err]| |p]; cbn [isStoreUpdated];
    intros H; try discriminate H; unfold dispatch, settle;
    rewrite ?perform_store; try reflexivity.
  destruct ts as [|[] ts]; reflexivity.
Qed.

Hypothesis update_keeps_resultVisible :
  forall (this : ColorPickerStore) (p : Payload),
    resultVisible this = true -> resultVisible (update this p) = true.

Lemma dispatch_keeps_resultVisible (e : event Payload) (w : World) :
  resultVisible (store w) = true ->
  resultVisible (store (dispatch update e w)) = true.
Proof.
  intros H. destruct (isStoreUpdated e) eqn:E.
  - destruct e; try discriminate E. cbn. apply update_keeps_resultVisible. exact H.
  - pose proof (dispatch_colourState e w E) as C. unfold colourState in C.
    injection C as _ _ _ _ C. rewrite C. exact H.
Qed.

Lemma run_keeps_resultVisible (events : list (event Payload)) (w : World) :
  resultVisible (store w) = true ->
  resultVisible (store (run update events w)) = true.
Proof.
  revert w. induction events as [|e rest IH]; intros w H; cbn.
  - exact H.
  - apply IH. apply dispatch_keeps_resultVisible. exact H.
Qed.

End EventLoopProperties.

Section StoreInvariants.
Import ColorPicker.

Lemma HexStore_update_keeps_resultVisible
  (this : ColorPickerStore) (p : HexStore.ColorStore.t) :
  resultVisible this = true ->
  resultVisible (HexStore.updateFromTauriStore this p) = true.
Proof.
  destruct this, p as [[f|] [b|] cm]; unfold HexStore.updateFromTauriStore;
    cbn [HexStore.ColorStore.foreground HexStore.ColorStore.background];
    try destruct (truthy (Some f)); try destruct (truthy (Some b));
    cbn; intros H; try exact H; reflexivity.
Qed.

Lemma RgbStore_update_sets_resultVisible
  (this : ColorPickerStore) (p : RgbStore.ColorStore.t) :
  resultVisible (RgbStore.updateFromTauriStore this p) = true.
Proof.
  destruct this, p as [[[fr fg] fb] [[br bg] bb] cm]. reflexivity.
Qed.

(** C8. [resultVisible] stays true once it is true: from a store that
    shows the result, no sequence of [pickColor] calls and settlements,
    [copyHex] calls and settlements, elapsed timers and
    [updateFromTauriStore] pushes leads to a store that hides it, in the
    hex-payload revision and in the RGB-payload revision alike. *)
Theorem resultVisible_stays_true :
  (forall (events : list (event HexStore.ColorStore.t)) (w : World),
      resultVisible (store w) = true ->
      resultVisible (store (run HexStore.updateFromTauriStore events w)) = true) /\
  (forall (events : list (event RgbStore.ColorStore.t)) (w : World),
      resultVisible (store w) = true ->
      resultVisible (store (run RgbStore.updateFromTauriStore events w)) = true).
Proof.
  split.
  - intros events w. apply run_keeps_resultVisible.
    exact HexStore_update_keeps_resultVisible.
  - intros events w. apply run_keeps_resultVisible.
    intros this p _. apply RgbStore_update_sets_resultVisible.
Qed.

Lemma resultVisible_stays_true_witness :
  resultVisible
    (store
       (run HexStore.updateFromTauriStore
          [pickColor_called false;
           store_updated {| HexStore.ColorStore.foreground := None;
                            HexStore.ColorStore.background := None;
                            HexStore.ColorStore.continue_mode := false |};
           pickColor_settled false (Rejected "cancelled");
           copyHex_called true; copyHex_settled true (Resolved tt);
           timer_elapsed]
          {| store := set_resultVisible true colorPickerStore;
             timers := []; console := [] |})) = true.
Proof.
  apply (proj1 resultVisible_stays_true). reflexivity.
Defined.



End StoreInvariants.

(* ================================================================= *)
(** ** Further properties of utils.ts *)

Section UtilsFurther.
Import Utils.

Lemma pairByteCheck_all :
  forall_ascii (fun c1 => forall_ascii (fun c2 => pairByteCheck c1 c2)) = true.
Proof. vm_compute. reflexivity. Qed.

(** Two hex digits: the byte they spell, also in upper case. *)
Lemma parseInt_hexPair (c1 c2 : ascii) :
  isHexDigit c1 = true -> isHexDigit c2 = true ->
  exists n : N,
    (n < 256)%N /\
    parseInt (String c1 (String c2 "")) 16 = byte n /\
    parseInt (String (upperChar c1) (String (upperChar c2) "")) 16 = byte n /\
    isHexDigit (upperChar c1) = true /\ isHexDigit (upperChar c2) = true.
Proof.
  intros H1 H2.
  pose proof (forall_ascii_spec _ (forall_ascii_spec _ pairByteCheck_all c1) c2) as H.
  unfold pairByteCheck in H. rewrite H1, H2 in H. cbn [andb implb] in H.
  destruct (parseInt (String c1 (String c2 "")) 16) as [| |[num den]];
    try discriminate H.
  cbn [Qnum Qden] in H.
  apply andb_prop in H. destruct H as [H U2].
  apply andb_prop in H. destruct H as [H U1].
  apply andb_prop in H. destruct H as [H I].
  apply andb_prop in H. destruct H as [H Hhi].
  apply andb_prop in H. destruct H as [Hd Hlo].
  apply Pos.eqb_eq in Hd. apply Z.leb_le in Hlo. apply Z.ltb_lt in Hhi.
  subst den. exists (Z.to_N num).
  assert (E : Z.of_N (Z.to_N num) = num) by (apply Z2N.id; exact Hlo).
  unfold byte. rewrite E. repeat split; try assumption.
  - lia.
  - apply isInteger_eq. assumption.
Qed.

(** What a valid string is made of. *)
Lemma validHex_shape (h : string) :
  validHex h = true ->
  exists c1 c2 c3 c4 c5 c6 : ascii,
    h = String "#" (String c1 (String c2 (String c3 (String c4 (String c5
          (String c6 "")))))) /\
    isHexDigit c1 = true /\ isHexDigit c2 = true /\ isHexDigit c3 = true /\
    isHexDigit c4 = true /\ isHexDigit c5 = true /\ isHexDigit c6 = true.
Proof.
  intros H.
  destruct h as [|c0 [|c1 [|c2 [|c3 [|c4 [|c5 [|c6 [|c7 h]]]]]]]];
    cbn in H; try discriminate H;
    try (rewrite ?andb_false_r in H; discriminate H).
  repeat (apply andb_prop in H; destruct H as [H ?]).
  repeat match goal with
         | X : (_ && _)%bool = true |- _ => apply andb_prop in X; destruct X
         end.
  apply Ascii.eqb_eq in H. subst c0.
  exists c1, c2, c3, c4, c5, c6. repeat split; assumption.
Qed.

(** X1. On a valid ['#RRGGBB'] string [hexToRgb] reads three bytes, none
    of them [NaN], and returns their decimal text. *)
Theorem hexToRgb_valid_reads_bytes (h : string) :
  validHex h = true ->
  exists r g b : N,
    (r < 256)%N /\ (g < 256)%N /\ (b < 256)%N /\
    hexToRgb_channels h = (byte r, byte g, byte b) /\
    hexToRgb h = rgbText (byte r) (byte g) (byte b).
Proof.
  intros H.
  destruct (validHex_shape h H) as (c1 & c2 & c3 & c4 & c5 & c6 & E & H1 & H2 & H3 & H4 & H5 & H6).
  subst h.
  destruct (parseInt_hexPair c1 c2 H1 H2) as (r & Hr & Pr & _).
  destruct (parseInt_hexPair c3 c4 H3 H4) as (g & Hg & Pg & _).
  destruct (parseInt_hexPair c5 c6 H5 H6) as (b & Hb & Pb & _).
  exists r, g, b.
  assert (Hch : hexToRgb_channels
                  (String "#" (String c1 (String c2 (String c3 (String c4
                     (String c5 (String c6 ""))))))) = (byte r, byte g, byte b)).
  { unfold hexToRgb_channels, slice. cbn [substring Nat.sub].
    rewrite Pr, Pg, Pb. reflexivity. }
  repeat split; try assumption.
  unfold hexToRgb. rewrite Hch. reflexivity.
Qed.

Lemma hexToRgb_valid_reads_bytes_witness :
  exists r g b : N,
    (r < 256)%N /\ (g < 256)%N /\ (b < 256)%N /\
    hexToRgb_channels "#0a141E" = (byte r, byte g, byte b) /\
    hexToRgb "#0a141E" = rgbText (byte r) (byte g) (byte b).
Proof. apply (hexToRgb_valid_reads_bytes "#0a141E"). reflexivity. Defined.

(** X2. [hexToRgb] does not mind the case of the digits: a valid string
    and its upper-case form, itself valid, give the same text. *)
Theorem hexToRgb_case_insensitive (h : string) :
  validHex h = true ->
  validHex (toUpperCase h) = true /\ hexToRgb (toUpperCase h) = hexToRgb h.
Proof.
  intros H.
  destruct (validHex_shape h H) as (c1 & c2 & c3 & c4 & c5 & c6 & E & H1 & H2 & H3 & H4 & H5 & H6).
  subst h.
  destruct (parseInt_hexPair c1 c2 H1 H2) as (r & _ & Pr & Ur & U1 & U2).
  destruct (parseInt_hexPair c3 c4 H3 H4) as (g & _ & Pg & Ug & U3 & U4).
  destruct (parseInt_hexPair c5 c6 H5 H6) as (b & _ & Pb & Ub & U5 & U6).
  split.
  - cbn [toUpperCase validHex allHexDigits String.length].
    rewrite U1, U2, U3, U4, U5, U6. reflexivity.
  - unfold hexToRgb, hexToRgb_channels, slice.
    cbn [toUpperCase substring Nat.sub].
    rewrite Pr, Pg, Pb, Ur, Ug, Ub. reflexivity.
Qed.

Lemma hexToRgb_case_insensitive_witness :
  validHex (toUpperCase "#c0ffee") = true /\
  hexToRgb (toUpperCase "#c0ffee") = hexToRgb "#c0ffee".
Proof. apply (hexToRgb_case_insensitive "#c0ffee"). reflexivity. Defined.

(** Reading back what [rgbToHex] wrote from three bytes. *)
Lemma hexToRgb_channels_rgbToHex (r g b : N) :
  (r < 256)%N -> (g < 256)%N -> (b < 256)%N ->
  hexToRgb_channels (rgbToHex (byte r) (byte g) (byte b)) = (byte r, byte g, byte b).
Proof.
  intros Hr Hg Hb.
  destruct (hexByte_byte r Hr) as (r1 & r2 & Er & _ & _ & _ & _ & Pr).
  destruct (hexByte_byte g Hg) as (g1 & g2 & Eg & _ & _ & _ & _ & Pg).
  destruct (hexByte_byte b Hb) as (b1 & b2 & Eb & _ & _ & _ & _ & Pb).
  unfold hexToRgb_channels, rgbToHex, slice. rewrite Er, Eg, Eb.
  cbn [append substring Nat.sub]. rewrite Pr, Pg, Pb. reflexivity.
Qed.

Lemma byte_injective (m n : N) : byte m = byte n -> m = n.
Proof.
  unfold byte, inject_Z. intros H. injection H as H. lia.
Qed.

(** X3. [rgbToHex] loses nothing on bytes: two byte triples written as the
    same string are the same triple. *)
Theorem rgbToHex_injective_on_bytes (r g b r' g' b' : N) :
  (r < 256)%N -> (g < 256)%N -> (b < 256)%N ->
  (r' < 256)%N -> (g' < 256)%N -> (b' < 256)%N ->
  rgbToHex (byte r) (byte g) (byte b) = rgbToHex (byte r') (byte g') (byte b') ->
  r = r' /\ g = g' /\ b = b'.
Proof.
  intros Hr Hg Hb Hr' Hg' Hb' E.
  pose proof (hexToRgb_channels_rgbToHex r g b Hr Hg Hb) as C.
  pose proof (hexToRgb_channels_rgbToHex r' g' b' Hr' Hg' Hb') as C'.
  rewrite E in C. rewrite C in C'.
  repeat split; apply byte_injective; congruence.
Qed.

Lemma rgbToHex_injective_on_bytes_witness :
  18%N = 18%N /\ 171%N = 171%N /\ 239%N = 239%N.
Proof.
  apply (rgbToHex_injective_on_bytes 18 171 239 18 171 239); reflexivity.
Defined.

End UtilsFurther.

Section RgbToHexRange.
Import Utils.

Lemma length_append (s t : string) :
  String.length (s ++ t) = (String.length s + String.length t)%nat.
Proof. induction s as [|c s IH]; cbn; [reflexivity | rewrite IH; reflexivity]. Qed.

Lemma append_empty_r (s : string) : s ++ "" = s.
Proof. induction s as [|c s IH]; cbn; [reflexivity | rewrite IH; reflexivity]. Qed.

Lemma length_toUpperCase (s : string) :
  String.length (toUpperCase s) = String.length s.
Proof. induction s as [|c s IH]; cbn; [reflexivity | rewrite IH; reflexivity]. Qed.

Lemma length_repeatChar (n : nat) (c : ascii) : String.length (repeatChar n c) = n.
Proof. induction n as [|n IH]; cbn; [reflexivity | rewrite IH; reflexivity]. Qed.

(** [padStart] never shortens and reaches the target length. *)
Lemma length_padStart (target : nat) (c : ascii) (s : string) :
  String.length (padStart target c s) = Nat.max target (String.length s).
Proof.
  unfold padStart. destruct (String.length s <? target)%nat eqn:E.
  - apply Nat.ltb_lt in E. rewrite length_append, length_repeatChar. lia.
  - apply Nat.ltb_ge in E. lia.
Qed.

Lemma length_digitsLoop_ge (fuel : nat) (radix n : N) (acc : string) :
  (String.length acc <= String.length (digitsLoop fuel radix n acc))%nat.
Proof.
  revert n acc. induction fuel as [|fuel IH]; intros n acc; cbn [digitsLoop].
  - lia.
  - destruct (n / radix =? 0)%N.
    + cbn. lia.
    + specialize (IH (n / radix)%N (String (digitChar (n mod radix)) acc)).
      cbn [String.length] in IH. lia.
Qed.

(** The byte [n] in base 16 is the digits of [n]. *)
Lemma Number_toString_16_byte (n : N) :
  Number_toString 16 (byte n) = integerDigits 16 n.
Proof.
  unfold Number_toString, byte, inject_Z. cbn [Qnum Qden].
  rewrite Zabs2N.id, N.div_1_r, N.mod_1_r.
  destruct (Z.of_N n <? 0)%Z eqn:E; [apply Z.ltb_lt in E; lia|].
  cbn [N.eqb append]. apply append_empty_r.
Qed.

(** From 256 on a number has three hex digits or more. *)
Lemma length_integerDigits_16_ge (n : N) :
  (256 <= n)%N -> (3 <= String.length (integerDigits 16 n))%nat.
Proof.
  intros H. unfold integerDigits.
  assert (L : (8 <= N.log2 n)%N).
  { apply N.log2_le_pow2; [lia | exact H]. }
  destruct (N.to_nat (N.log2 n)) as [|[|k]] eqn:E; try lia.
  cbn [digitsLoop].
  assert (A : (16 <= n / 16)%N).
  { apply N.div_le_lower_bound; lia. }
  assert (B : (1 <= n / 16 / 16)%N).
  { apply N.div_le_lower_bound; lia. }
  destruct (n / 16 =? 0)%N eqn:E1; [apply N.eqb_eq in E1; lia|].
  destruct (n / 16 / 16 =? 0)%N eqn:E2; [apply N.eqb_eq in E2; lia|].
  destruct (n / 16 / 16 / 16 =? 0)%N.
  - cbn. lia.
  - match goal with
    | |- (_ <= String.length (digitsLoop ?f ?r ?m ?acc))%nat =>
        pose proof (length_digitsLoop_ge f r m acc) as G
    end.
    cbn [String.length] in G. lia.
Qed.

Lemma length_hexByte_ge (x : number) : (2 <= String.length (hexByte x))%nat.
Proof.
  unfold hexByte. rewrite length_toUpperCase, length_padStart. lia.
Qed.

Lemma length_hexByte_byte_large (n : N) :
  (256 <= n)%N -> (3 <= String.length (hexByte (byte n)))%nat.
Proof.
  intros H. unfold hexByte.
  rewrite length_toUpperCase, length_padStart, Number_toString_16_byte.
  pose proof (length_integerDigits_16_ge n H). lia.
Qed.

Lemma validHex_length (h : string) : validHex h = true -> String.length h = 7%nat.
Proof.
  destruct h as [|c rest]; cbn [validHex]; [discriminate|].
  intros H. apply andb_prop in H. destruct H as [H _].
  apply andb_prop in H. destruct H as [_ H].
  apply Nat.eqb_eq in H. cbn [String.length]. lia.
Qed.

(** Three bytes are written as a valid string. *)
Lemma validHex_rgbToHex_bytes (r g b : N) :
  (r < 256)%N -> (g < 256)%N -> (b < 256)%N ->
  validHex (rgbToHex (byte r) (byte g) (byte b)) = true.
Proof.
  intros Hr Hg Hb.
  destruct (hexByte_byte r Hr) as (r1 & r2 & Er & Hr1 & Hr2 & _).
  destruct (hexByte_byte g Hg) as (g1 & g2 & Eg & Hg1 & Hg2 & _).
  destruct (hexByte_byte b Hb) as (b1 & b2 & Eb & Hb1 & Hb2 & _).
  unfold rgbToHex. rewrite Er, Eg, Eb.
  cbn [append validHex allHexDigits String.length].
  rewrite Hr1, Hr2, Hg1, Hg2, Hb1, Hb2. reflexivity.
Qed.

(** X4. [rgbToHex] does not clamp: for channels that are natural numbers
    the string it writes is a valid ['#RRGGBB'] exactly when all three are
    below 256; a larger channel makes the string longer than seven
    characters. *)
Theorem rgbToHex_valid_iff_bytes (r g b : N) :
  validHex (rgbToHex (byte r) (byte g) (byte b)) = true <->
  (r < 256)%N /\ (g < 256)%N /\ (b < 256)%N.
Proof.
  split.
  - intros H. apply validHex_length in H. unfold rgbToHex in H.
    rewrite !length_append in H. cbn [String.length] in H.
    pose proof (length_hexByte_ge (byte r)) as Lr.
    pose proof (length_hexByte_ge (byte g)) as Lg.
    pose proof (length_hexByte_ge (byte b)) as Lb.
    repeat split.
    + destruct (N.lt_ge_cases r 256) as [?|G]; [assumption|].
      pose proof (length_hexByte_byte_large r G). lia.
    + destruct (N.lt_ge_cases g 256) as [?|G]; [assumption|].
      pose proof (length_hexByte_byte_large g G). lia.
    + destruct (N.lt_ge_cases b 256) as [?|G]; [assumption|].
      pose proof (length_hexByte_byte_large b G). lia.
  - intros (Hr & Hg & Hb). apply validHex_rgbToHex_bytes; assumption.
Qed.

Lemma rgbToHex_valid_iff_bytes_witness :
  validHex (rgbToHex (byte 255) (byte 0) (byte 16)) = true /\
  ~ validHex (rgbToHex (byte 256) (byte 0) (byte 0)) = true.
Proof.
  split.
  - apply (proj2 (rgbToHex_valid_iff_bytes 255 0 16)). repeat split; reflexivity.
  - intros H. apply (proj1 (rgbToHex_valid_iff_bytes 256 0 0)) in H.
    destruct H as [H _]. discriminate H.
Defined.

End RgbToHexRange.

(* ================================================================= *)
(** ** Further properties of the hex-payload store *)

Section HexStoreFurther.
Import ColorPicker.

Lemma truthy_Some_nonempty (s : string) : truthy (Some s) = true -> s <> "".
Proof.
  cbn. intros H E. subst s. discriminate H.
Qed.

Lemma truthy_Some_false (s : string) : truthy (Some s) = false -> s = "".
Proof.
  cbn. destruct s; [reflexivity | discriminate].
Qed.

(** The store after a push, case by case on the two roles. *)
Lemma HexStore_update_cases (this : ColorPickerStore) (s : HexStore.ColorStore.t) :
  HexStore.updateFromTauriStore this s =
  let this1 :=
    match HexStore.ColorStore.foreground s with
    | Some hex =>
        if truthy (Some hex)
        then set_resultVisible true (set_foregroundRgb (Utils.hexToRgb hex) (set_foreground hex this))
        else this
    | None => this
    end in
  match HexStore.ColorStore.background s with
  | Some hex =>
      if truthy (Some hex)
      then set_resultVisible true (set_backgroundRgb (Utils.hexToRgb hex) (set_background hex this1))
      else this1
  | None => this1
  end.
Proof. reflexivity. Qed.

(** X5. In a push, a role that is [null] or the empty string is left
    untouched, hex and RGB text alike, and a push with neither role
    changes nothing at all, [resultVisible] included. *)
Theorem HexStore_falsy_role_untouched :
  (forall (this : ColorPickerStore) (s : HexStore.ColorStore.t),
      truthy (HexStore.ColorStore.foreground s) = false ->
      foreground (HexStore.updateFromTauriStore this s) = foreground this /\
      foregroundRgb (HexStore.updateFromTauriStore this s) = foregroundRgb this) /\
  (forall (this : ColorPickerStore) (s : HexStore.ColorStore.t),
      truthy (HexStore.ColorStore.background s) = false ->
      background (HexStore.updateFromTauriStore this s) = background this /\
      backgroundRgb (HexStore.updateFromTauriStore this s) = backgroundRgb this) /\
  (forall (this : ColorPickerStore) (s : HexStore.ColorStore.t),
      truthy (HexStore.ColorStore.foreground s) = false ->
      truthy (HexStore.ColorStore.background s) = false ->
      HexStore.updateFromTauriStore this s = this).
Proof.
  split; [|split].
  - intros this [f b cm] H. cbn [HexStore.ColorStore.foreground] in H.
    rewrite HexStore_update_cases.
    cbn [HexStore.ColorStore.foreground HexStore.ColorStore.background].
    destruct this, f as [f|], b as [b|]; try rewrite H;
      try destruct (truthy (Some b)); split; reflexivity.
  - intros this [f b cm] H. cbn [HexStore.ColorStore.background] in H.
    rewrite HexStore_update_cases.
    cbn [HexStore.ColorStore.foreground HexStore.ColorStore.background].
    destruct this, f as [f|], b as [b|]; try rewrite H;
      try destruct (truthy (Some f)); split; reflexivity.
  - intros this [f b cm] Hf Hb.
    cbn [HexStore.ColorStore.foreground HexStore.ColorStore.background] in Hf, Hb.
    rewrite HexStore_update_cases.
    cbn [HexStore.ColorStore.foreground HexStore.ColorStore.background].
    destruct f as [f|], b as [b|]; try rewrite Hf; try rewrite Hb; reflexivity.
Qed.

Lemma HexStore_falsy_role_untouched_witness :
  HexStore.updateFromTauriStore (set_foreground "#112233" colorPickerStore)
    {| HexStore.ColorStore.foreground := Some "";
       HexStore.ColorStore.background := None;
       HexStore.ColorStore.continue_mode := true |} =
  set_foreground "#112233" colorPickerStore.
Proof.
  apply (proj2 (proj2 HexStore_falsy_role_untouched)); reflexivity.
Defined.

(** X6. The last push wins, role by role: a push that carries both roles
    overwrites whatever an earlier push left, and a foreground-only push
    and a background-only push can be applied in either order. *)
Theorem HexStore_pushes_compose :
  (forall (this : ColorPickerStore) (s1 s2 : HexStore.ColorStore.t),
      truthy (HexStore.ColorStore.foreground s2) = true ->
      truthy (HexStore.ColorStore.background s2) = true ->
      HexStore.updateFromTauriStore (HexStore.updateFromTauriStore this s1) s2 =
      HexStore.updateFromTauriStore this s2) /\
  (forall (this : ColorPickerStore) (s1 s2 : HexStore.ColorStore.t),
      truthy (HexStore.ColorStore.background s1) = false ->
      truthy (HexStore.ColorStore.foreground s2) = false ->
      HexStore.updateFromTauriStore (HexStore.updateFromTauriStore this s1) s2 =
      HexStore.updateFromTauriStore (HexStore.updateFromTauriStore this s2) s1).
Proof.
  split.
  - intros this [f1 b1 c1] [f2 b2 c2] Hf Hb.
    cbn [HexStore.ColorStore.foreground HexStore.ColorStore.background] in Hf, Hb.
    rewrite !HexStore_update_cases.
    cbn [HexStore.ColorStore.foreground HexStore.ColorStore.background].
    destruct f2 as [f2|]; [|discriminate Hf].
    destruct b2 as [b2|]; [|discriminate Hb].
    rewrite Hf, Hb.
    destruct this, f1 as [f1|], b1 as [b1|];
      try destruct (truthy (Some f1)); try destruct (truthy (Some b1));
      reflexivity.
  - intros this [f1 b1 c1] [f2 b2 c2] Hb Hf.
    cbn [HexStore.ColorStore.foreground HexStore.ColorStore.background] in Hf, Hb.
    rewrite !HexStore_update_cases.
    cbn [HexStore.ColorStore.foreground HexStore.ColorStore.background].
    destruct this, f1 as [f1|], b1 as [b1|], f2 as [f2|], b2 as [b2|];
      try rewrite Hb; try rewrite Hf;
      try destruct (truthy (Some f1)); try destruct (truthy (Some b2));
      reflexivity.
Qed.

Lemma HexStore_pushes_compose_witness :
  HexStore.updateFromTauriStore
    (HexStore.updateFromTauriStore colorPickerStore
       {| HexStore.ColorStore.foreground := Some "#000000";
          HexStore.ColorStore.background := None;
          HexStore.ColorStore.continue_mode := false |})
    {| HexStore.ColorStore.foreground := None;
       HexStore.ColorStore.background := Some "#FFFFFF";
       HexStore.ColorStore.continue_mode := false |} =
  HexStore.updateFromTauriStore
    (HexStore.updateFromTauriStore colorPickerStore
       {| HexStore.ColorStore.foreground := None;
          HexStore.ColorStore.background := Some "#FFFFFF";
          HexStore.ColorStore.continue_mode := false |})
    {| HexStore.ColorStore.foreground := Some "#000000";
       HexStore.ColorStore.background := None;
       HexStore.ColorStore.continue_mode := false |}.
Proof.
  apply (proj2 HexStore_pushes_compose); reflexivity.
Defined.

Lemma hexConsistent_colourState (a b : ColorPickerStore) :
  colourState a = colourState b -> hexConsistent b -> hexConsistent a.
Proof.
  unfold colourState, hexConsistent. intros E. injection E as E1 E2 E3 E4 E5.
  rewrite E1, E2, E3, E4, E5. exact (fun H => H).
Qed.

Lemma HexStore_update_consistent (this : ColorPickerStore) (s : HexStore.ColorStore.t) :
  hexConsistent this -> hexConsistent (HexStore.updateFromTauriStore this s).
Proof.
  intros (Hf & Hb & Hrv). destruct s as [f b cm].
  rewrite HexStore_update_cases.
  cbn [HexStore.ColorStore.foreground HexStore.ColorStore.background].
  destruct this as [ip rv fh bh fr br cv].
  cbn [foreground background foregroundRgb backgroundRgb resultVisible] in Hf, Hb, Hrv.
  destruct f as [f|]; [destruct (truthy (Some f)) eqn:Tf|];
    (destruct b as [b|]; [destruct (truthy (Some b)) eqn:Tb|]);
    try apply truthy_Some_nonempty in Tf; try apply truthy_Some_nonempty in Tb;
    unfold hexConsistent; cbn;
    repeat split;
    try (right; split; [assumption | reflexivity]);
    try assumption;
    try (intros _; left; assumption);
    try (intros _; right; assumption);
    try (apply Hrv); try (apply Hrv; assumption).
Qed.

(** X7. In the hex-payload store, whatever happens after the page is
    loaded, a role's hex and RGB text belong together (both still empty,
    or the RGB text is [hexToRgb] of the hex), and the result is shown
    exactly when at least one role has a hex. *)
Theorem HexStore_reachable_consistent (events : list (event HexStore.ColorStore.t)) :
  hexConsistent (store (run HexStore.updateFromTauriStore events pickerLoaded)).
Proof.
  assert (G : forall w, hexConsistent (store w) ->
                        hexConsistent (store (run HexStore.updateFromTauriStore events w))).
  { induction events as [|e rest IH]; intros w H; cbn [run]; [exact H|].
    apply IH. destruct (isStoreUpdated e) eqn:E.
    - destruct e; try discriminate E. cbn. apply HexStore_update_consistent. exact H.
    - apply (hexConsistent_colourState _ (store w)); [|exact H].
      apply dispatch_colourState. exact E. }
  apply G. unfold hexConsistent, pairedTexts. cbn.
  repeat split; try (left; split; reflexivity).
  - discriminate.
  - intros [H|H]; exfalso; apply H; reflexivity.
Qed.

End HexStoreFurther.

(* ================================================================= *)
(** ** Further properties of the RGB-payload and [UIStore] revisions *)

Section WholeReplacement.

(** X8. Where the payload always carries both colours, the last push
    wins outright: after two pushes the store is the one the second push
    alone would have left, in the RGB-payload store and in the [UIStore]. *)
Theorem last_push_wins :
  (forall (this : ColorPicker.ColorPickerStore) (s1 s2 : RgbStore.ColorStore.t),
      RgbStore.updateFromTauriStore (RgbStore.updateFromTauriStore this s1) s2 =
      RgbStore.updateFromTauriStore this s2) /\
  (forall (this : WcagStore.UIStore) (s1 s2 : WcagStore.BackendStore),
      WcagStore.updateFromTauriStore (WcagStore.updateFromTauriStore this s1) s2 =
      WcagStore.updateFromTauriStore this s2).
Proof.
  split.
  - intros this [[[fr1 fg1] fb1] [[br1 bg1] bb1] c1] [[[fr2 fg2] fb2] [[br2 bg2] bb2] c2].
    destruct this. reflexivity.
  - intros this s1 s2.
    destruct this,
      s1 as [p1 [[fr1 fg1] fb1] fh1 fd1 [[br1 bg1] bb1] bh1 bd1 ratio1 cm1],
      s2 as [p2 [[fr2 fg2] fb2] fh2 fd2 [[br2 bg2] bb2] bh2 bd2 ratio2 cm2].
    unfold WcagStore.updateFromTauriStore;
      cbn [WcagStore.contrast_ratio_rounded WcagStore.platform
           WcagStore.foreground_rgb WcagStore.foreground_hex
           WcagStore.foreground_is_dark WcagStore.background_rgb
           WcagStore.background_hex WcagStore.background_is_dark].
    destruct (lt (Num ratio1) (Num 7)), (lt (Num ratio1) (Num (9 # 2))),
      (lt (Num ratio1) (Num 3)), (lt (Num ratio2) (Num 7)),
      (lt (Num ratio2) (Num (9 # 2))), (lt (Num ratio2) (Num 3)); reflexivity.
Qed.

Lemma rgbConsistent_colourState (a b : ColorPicker.ColorPickerStore) :
  colourState a = colourState b -> rgbConsistent b -> rgbConsistent a.
Proof.
  unfold colourState, rgbConsistent. intros E. injection E as E1 E2 E3 E4 E5.
  rewrite E1, E2, E3, E4, E5. exact (fun H => H).
Qed.

Lemma RgbStore_update_consistent
  (this : ColorPicker.ColorPickerStore) (s : RgbStore.ColorStore.t) :
  rgbConsistent (RgbStore.updateFromTauriStore this s).
Proof.
  destruct this, s as [[[fr fg] fb] [[br bg] bb] cm]. right.
  split; [reflexivity|]. split.
  - exists fr, fg, fb. split; reflexivity.
  - exists br, bg, bb. split; reflexivity.
Qed.

(** X9. In the RGB-payload store, whatever happens after the page is
    loaded, either nothing is shown and the four texts are empty, or the
    result is shown and each role's hex and RGB text were written from
    one and the same triple. *)
Theorem RgbStore_reachable_consistent (events : list (ColorPicker.event RgbStore.ColorStore.t)) :
  rgbConsistent
    (ColorPicker.store (ColorPicker.run RgbStore.updateFromTauriStore events pickerLoaded)).
Proof.
  assert (G : forall w, rgbConsistent (ColorPicker.store w) ->
                        rgbConsistent
                          (ColorPicker.store
                             (ColorPicker.run RgbStore.updateFromTauriStore events w))).
  { induction events as [|e rest IH]; intros w H; cbn [ColorPicker.run]; [exact H|].
    apply IH. destruct (isStoreUpdated e) eqn:E.
    - destruct e; try discriminate E. cbn. apply RgbStore_update_consistent.
    - apply (rgbConsistent_colourState _ (ColorPicker.store w)); [|exact H].
      apply dispatch_colourState. exact E. }
  apply G. left. cbn. repeat split.
Qed.

(** The hex strings [rgbToHex] writes are not empty. *)
Lemma truthy_rgbToHex (r g b : number) : truthy (Some (Utils.rgbToHex r g b)) = true.
Proof. reflexivity. Qed.

Lemma hexToRgb_rgbToHex (r g b : N) :
  (r < 256)%N -> (g < 256)%N -> (b < 256)%N ->
  Utils.hexToRgb (Utils.rgbToHex (byte r) (byte g) (byte b)) =
  rgbText (byte r) (byte g) (byte b).
Proof.
  intros Hr Hg Hb. unfold Utils.hexToRgb.
  rewrite (hexToRgb_channels_rgbToHex r g b Hr Hg Hb). reflexivity.
Qed.

(** X10. The two payload revisions of the store agree: for two colours
    given as byte triples, the hex-payload [updateFromTauriStore] on their
    ['#RRGGBB'] strings and the RGB-payload one on the triples leave the
    same store. *)
Theorem hex_and_rgb_revisions_agree
  (this : ColorPicker.ColorPickerStore) (f b : N * N * N) (cm : bool) :
  isByteTriple f -> isByteTriple b ->
  HexStore.updateFromTauriStore this (hexPayload f b cm) =
  RgbStore.updateFromTauriStore this (rgbPayload f b cm).
Proof.
  destruct f as [[fr fg] fb], b as [[br bg] bb].
  intros (Hfr & Hfg & Hfb) (Hbr & Hbg & Hbb).
  unfold hexPayload, rgbPayload. rewrite HexStore_update_cases.
  cbn [HexStore.ColorStore.foreground HexStore.ColorStore.background].
  rewrite !truthy_rgbToHex.
  rewrite (hexToRgb_rgbToHex fr fg fb Hfr Hfg Hfb).
  rewrite (hexToRgb_rgbToHex br bg bb Hbr Hbg Hbb).
  destruct this. reflexivity.
Qed.

Lemma hex_and_rgb_revisions_agree_witness :
  HexStore.updateFromTauriStore ColorPicker.colorPickerStore
    (hexPayload (0, 0, 0)%N (255, 255, 255)%N false) =
  RgbStore.updateFromTauriStore ColorPicker.colorPickerStore
    (rgbPayload (0, 0, 0)%N (255, 255, 255)%N false).
Proof.
  apply (hex_and_rgb_revisions_agree ColorPicker.colorPickerStore
           (0, 0, 0)%N (255, 255, 255)%N false);
    repeat split; reflexivity.
Defined.

End WholeReplacement.

(* ================================================================= *)
(** ** Further properties of the [UIStore] page *)

Section UIStoreFurther.
Import WcagStore.

Lemma nestedLevels_update (this : UIStore) (s : BackendStore) :
  nestedLevels (levels (updateFromTauriStore this s)).
Proof.
  rewrite levels_updateFromTauriStore. unfold nestedLevels.
  cbn [L143Regular L143Large L146Regular L146Large L1411].
  repeat split.
  - intros H. apply (Qle_bool_mono _ 7 _ H). reflexivity.
  - intros H. apply (Qle_bool_mono _ (9 # 2) _ H). reflexivity.
Qed.

(** No event without a payload writes what the store shows of the
    colours and their contrast. *)
Lemma Main_dispatch_contrastState (e : Main.event) (w : Main.World) :
  carriesPayload e = false ->
  contrastState (Main.store (Main.dispatch e w)) = contrastState (Main.store w).
Proof.
  destruct w as [this log]. destruct this.
  destruct e as [fg|fg [u|err]|[s|err]|s|name|[[cp|]|err]]; cbn [carriesPayload];
    intros H; try discriminate H; reflexivity.
Qed.

(** X11. On the [UIStore] page the five WCAG flags are always nested,
    whatever events have run since the page was loaded: 1.4.6 regular
    implies 1.4.3 regular, which implies 1.4.3 large, while 1.4.6 large
    equals 1.4.3 regular and 1.4.11 equals 1.4.3 large. *)
Theorem wcag_levels_always_nested (events : list Main.event) :
  nestedLevels (levels (Main.store (Main.run events Main.loaded))).
Proof.
  assert (G : forall w, nestedLevels (levels (Main.store w)) ->
                        nestedLevels (levels (Main.store (Main.run events w)))).
  { induction events as [|e rest IH]; intros w H; cbn [Main.run]; [exact H|].
    apply IH. destruct (carriesPayload e) eqn:E.
    - destruct e as [fg|fg o|[s|err]|s|name|o]; try discriminate E;
        cbn; apply nestedLevels_update.
    - pose proof (Main_dispatch_contrastState e w E) as C.
      assert (L : levels (Main.store (Main.dispatch e w)) = levels (Main.store w))
        by (exact (f_equal snd C)).
      rewrite L. exact H. }
  apply G. unfold nestedLevels. cbn. repeat split.
Qed.

(** X12. The ICC profile name and the colour state do not touch each
    other: [updateFromTauriStore] leaves [currentICCProfile] (and
    [isPicking]) as they are, and both ICC handlers, the listener and the
    initial load, leave every field but [currentICCProfile] as it is. *)
Theorem icc_profile_independent_of_colours :
  (forall (this : UIStore) (s : BackendStore),
      currentICCProfile (updateFromTauriStore this s) = currentICCProfile this /\
      isPicking (updateFromTauriStore this s) = isPicking this) /\
  (forall (profileName : string) (this : UIStore),
      sameUIButIccProfile (fst (Main.onIccProfileChanged profileName this)) this) /\
  (forall (o : outcome (option string)) (this : UIStore),
      sameUIButIccProfile (fst (Main.loadInitialIccProfile o this)) this).
Proof.
  split; [|split].
  - intros this s.
    destruct this, s as [p [[fr fg] fb] fh fd [[br bg] bb] bh bd ratio cm].
    unfold updateFromTauriStore;
      cbn [contrast_ratio_rounded platform foreground_rgb foreground_hex
           foreground_is_dark background_rgb background_hex background_is_dark].
    destruct (lt (Num ratio) (Num 7)), (lt (Num ratio) (Num (9 # 2))),
      (lt (Num ratio) (Num 3)); split; reflexivity.
  - intros profileName this. destruct this. unfold sameUIButIccProfile. cbn.
    repeat split.
  - intros [[cp|]|err] this; destruct this; unfold sameUIButIccProfile; cbn;
      try destruct (truthy (Some cp)); repeat split.
Qed.

(** X13. The initial load of the ICC profile never leaves an empty name:
    when it resolves with [null] or the empty string the name becomes
    ["Auto"], when it resolves with a name that name is taken, and when
    it is rejected the name stays what it was and one error is logged. *)
Theorem initial_icc_profile_falls_back_to_Auto (this : UIStore) :
  currentICCProfile (fst (Main.loadInitialIccProfile (Resolved None) this)) = "Auto" /\
  currentICCProfile (fst (Main.loadInitialIccProfile (Resolved (Some "")) this)) = "Auto" /\
  (forall name : string,
      name <> "" ->
      currentICCProfile (fst (Main.loadInitialIccProfile (Resolved (Some name)) this)) = name) /\
  (forall cp : option string,
      currentICCProfile (fst (Main.loadInitialIccProfile (Resolved cp) this)) <> "") /\
  (forall err : string,
      Main.loadInitialIccProfile (Rejected err) this =
      (this, [(Main.error, "Error loading ICC profile:", err)])).
Proof.
  destruct this. repeat split.
  - intros name H. cbn. destruct name; [contradiction H; reflexivity | reflexivity].
  - intros [[|c name]|]; cbn; discriminate.
Qed.

Lemma initial_icc_profile_falls_back_to_Auto_witness :
  currentICCProfile
    (fst (Main.loadInitialIccProfile (Resolved (Some "Display P3")) UIStore_initial)) =
  "Display P3".
Proof.
  apply (proj1 (proj2 (proj2 (initial_icc_profile_falls_back_to_Auto UIStore_initial)))).
  discriminate.
Defined.

End UIStoreFurther.

(* ================================================================= *)
(** ** Further properties of the event loop of [colorPickerStore] *)

Section PickerLoopFurther.
Import ColorPicker.

Variable Payload : Type.
Variable update : ColorPickerStore -> Payload -> ColorPickerStore.

(** X14. Every rejection is logged, once, and nothing else is: after any
    events the console holds as many more lines as there were rejected
    [pick_color] and clipboard calls among them. *)
Theorem console_counts_rejections (events : list (event Payload)) (w : World) :
  List.length (console (run update events w)) =
  (List.length (console w) + List.length (filter isRejection events))%nat.
Proof.
  revert w. induction events as [|e rest IH]; intros w; cbn [run filter].
  - cbn. lia.
  - rewrite IH. destruct w as [this ts log].
    destruct e as [fg|fg [r|err]|isf|isf [u|err]| |p]; cbn;
      try rewrite length_app; cbn; try lia.
    destruct ts; cbn; lia.
Qed.

Hypothesis update_keeps_copiedVisible :
  forall (this : ColorPickerStore) (p : Payload),
    copiedVisible (update this p) = copiedVisible this.

Lemma dispatch_copied_has_timer (e : event Payload) (w : World) :
  (copiedVisible (store w) = true -> timers w <> []) ->
  copiedVisible (store (dispatch update e w)) = true ->
  timers (dispatch update e w) <> [].
Proof.
  destruct w as [this ts log].
  destruct e as [fg|fg [r|err]|isf|isf [u|err]| |p]; cbn [store timers];
    intros I.
  - destruct this; cbn. exact I.
  - destruct this; cbn. exact I.
  - destruct this; cbn. exact I.
  - cbn. exact I.
  - cbn. intros _. destruct ts; discriminate.
  - cbn. exact I.
  - destruct ts as [|[] ts]; cbn.
    + exact I.
    + destruct this; cbn. discriminate.
  - cbn. rewrite update_keeps_copiedVisible. exact I.
Qed.

Lemma run_copied_has_timer (events : list (event Payload)) (w : World) :
  (copiedVisible (store w) = true -> timers w <> []) ->
  copiedVisible (store (run update events w)) = true ->
  timers (run update events w) <> [].
Proof.
  revert w. induction events as [|e rest IH]; intros w I; cbn [run].
  - exact I.
  - apply IH. apply dispatch_copied_has_timer. exact I.
Qed.

End PickerLoopFurther.

Section CopiedNotification.
Import ColorPicker.

Lemma HexStore_update_keeps_copiedVisible
  (this : ColorPickerStore) (p : HexStore.ColorStore.t) :
  copiedVisible (HexStore.updateFromTauriStore this p) = copiedVisible this.
Proof.
  destruct this, p as [[f|] [b|] cm]; unfold HexStore.updateFromTauriStore;
    cbn [HexStore.ColorStore.foreground HexStore.ColorStore.background];
    try destruct (truthy (Some f)); try destruct (truthy (Some b)); reflexivity.
Qed.

Lemma RgbStore_update_keeps_copiedVisible
  (this : ColorPickerStore) (p : RgbStore.ColorStore.t) :
  copiedVisible (RgbStore.updateFromTauriStore this p) = copiedVisible this.
Proof.
  destruct this, p as [[[fr fg] fb] [[br bg] bb] cm]. reflexivity.
Qed.

(** X15. The "Copied!" notification cannot get stuck: whatever events
    have run since the page was loaded, whenever [copiedVisible] is true
    a timer that will hide it is still pending; so once every timer has
    elapsed the notification is hidden.  Pushes from the backend do not
    touch it, in either payload revision. *)
Theorem copied_notification_has_pending_timer :
  (forall events : list (event HexStore.ColorStore.t),
      copiedVisible (store (run HexStore.updateFromTauriStore events pickerLoaded)) = true ->
      timers (run HexStore.updateFromTauriStore events pickerLoaded) <> []) /\
  (forall events : list (event RgbStore.ColorStore.t),
      copiedVisible (store (run RgbStore.updateFromTauriStore events pickerLoaded)) = true ->
      timers (run RgbStore.updateFromTauriStore events pickerLoaded) <> []).
Proof.
  split; intros events; apply run_copied_has_timer;
    try exact HexStore_update_keeps_copiedVisible;
    try exact RgbStore_update_keeps_copiedVisible;
    cbn; discriminate.
Qed.

Lemma copied_notification_has_pending_timer_witness :
  timers
    (run HexStore.updateFromTauriStore
       [copyHex_called true; copyHex_settled true (Resolved tt);
        copyHex_called false; copyHex_settled false (Resolved tt); timer_elapsed;
        copyHex_settled true (Resolved tt)]
       pickerLoaded) <> [].
Proof.
  apply (proj1 copied_notification_has_pending_timer). reflexivity.
Defined.

End CopiedNotification.

(* ================================================================= *)
(** ** Further properties of the inline store *)

Section InlineFurther.
Import InlineStore.

Lemma Inline_perform_store (effects : list (effect callback)) (w : InlineLoop.World) :
  InlineLoop.store (InlineLoop.perform effects w) = InlineLoop.store w.
Proof.
  revert w. induction effects as [|[label error|cb ms] rest IH]; intros w; cbn.
  - reflexivity.
  - rewrite IH. reflexivity.
  - rewrite IH. reflexivity.
Qed.

Lemma Inline_dispatch_consistent (e : InlineLoop.event) (w : InlineLoop.World) :
  inlineConsistent (InlineLoop.store w) ->
  inlineConsistent (InlineLoop.store (InlineLoop.dispatch e w)).
Proof.
  destruct w as [this ts log]. destruct this as [ip rv h r bc cv].
  unfold inlineConsistent; cbn [InlineLoop.store hex rgb backgroundColor resultVisible].
  intros I.
  destruct e as [|[[[[[[cr cg] cb]|]]|]|err]| |[u|err]|];
    unfold InlineLoop.dispatch, InlineLoop.settle;
    rewrite ?Inline_perform_store; cbn; try exact I.
  - split; [reflexivity|]. right. split; [reflexivity|].
    exists cr, cg, cb. split; reflexivity.
  - destruct ts as [|[] ts]; cbn; exact I.
Qed.

(** X16. In the inline store, whatever happens after the page is loaded,
    the preview colour is the hex shown, and the result is shown exactly
    when a colour has been written: hidden with both texts empty, or
    visible with the hex and the RGB text written from one triple. *)
Theorem InlineStore_reachable_consistent (events : list InlineLoop.event) :
  inlineConsistent (InlineLoop.store (InlineLoop.run events InlineLoop.loaded)).
Proof.
  assert (G : forall w, inlineConsistent (InlineLoop.store w) ->
                        inlineConsistent (InlineLoop.store (InlineLoop.run events w))).
  { induction events as [|e rest IH]; intros w H; cbn [InlineLoop.run]; [exact H|].
    apply IH. apply Inline_dispatch_consistent. exact H. }
  apply G. unfold inlineConsistent. cbn. split; [reflexivity|].
  left. repeat split.
Qed.

(** X17. A pick that resolves with a colour given as three bytes leaves a
    valid ['#RRGGBB'] hex, the RGB text that [hexToRgb] reads from that
    very hex, the preview in that colour, the result shown and
    [isPicking] false. *)
Theorem Inline_pick_shows_one_colour (this : ColorPickerStore) (r g b : N) :
  (r < 256)%N -> (g < 256)%N -> (b < 256)%N ->
  let sample :=
    Some {| ColorResult.foreground :=
              Some (inject_Z (Z.of_N r), inject_Z (Z.of_N g), inject_Z (Z.of_N b)) |} in
  let after := fst (call pickColor (fun s => s) (Resolved sample) this) in
  validHex (hex after) = true /\
  Utils.hexToRgb (hex after) = rgb after /\
  backgroundColor after = hex after /\
  resultVisible after = true /\
  isPicking after = false.
Proof.
  intros Hr Hg Hb sample after. subst sample after. destruct this. cbn.
  repeat split.
  - apply validHex_rgbToHex_bytes; assumption.
  - apply hexToRgb_rgbToHex; assumption.
Qed.

Lemma Inline_pick_shows_one_colour_witness :
  hex
    (fst (call pickColor (fun s => s)
            (Resolved (Some {| ColorResult.foreground := Some (18, 171, 239)%Q |}))
            colorPicker)) = "#12ABEF" /\
  Utils.hexToRgb "#12ABEF" =
  rgb
    (fst (call pickColor (fun s => s)
            (Resolved (Some {| ColorResult.foreground := Some (18, 171, 239)%Q |}))
            colorPicker)).
Proof.
  split; [reflexivity|].
  apply (proj1 (proj2 (Inline_pick_shows_one_colour colorPicker 18 171 239
                         eq_refl eq_refl eq_refl))).
Defined.

Lemma Inline_dispatch_copied_has_timer (e : InlineLoop.event) (w : InlineLoop.World) :
  (copiedVisible (InlineLoop.store w) = true -> InlineLoop.timers w <> []) ->
  copiedVisible (InlineLoop.store (InlineLoop.dispatch e w)) = true ->
  InlineLoop.timers (InlineLoop.dispatch e w) <> [].
Proof.
  destruct w as [this ts log]. destruct this as [ip rv h r bc cv].
  cbn [InlineLoop.store InlineLoop.timers copiedVisible]. intros I.
  destruct e as [|[[[[[[cr cg] cb]|]]|]|err]| |[u|err]|]; cbn; try exact I.
  - intros _. destruct ts; discriminate.
  - destruct ts as [|[] ts]; cbn; [exact I | discriminate].
Qed.

(** X20. In the inline store too the "Copied!" notification cannot get
    stuck: whatever events have run since the page was loaded, whenever
    [copiedVisible] is true a timer that will hide it is still pending. *)
Theorem Inline_copied_has_pending_timer (events : list InlineLoop.event) :
  copiedVisible (InlineLoop.store (InlineLoop.run events InlineLoop.loaded)) = true ->
  InlineLoop.timers (InlineLoop.run events InlineLoop.loaded) <> [].
Proof.
  assert (G : forall w,
             (copiedVisible (InlineLoop.store w) = true -> InlineLoop.timers w <> []) ->
             copiedVisible (InlineLoop.store (InlineLoop.run events w)) = true ->
             InlineLoop.timers (InlineLoop.run events w) <> []).
  { induction events as [|e rest IH]; intros w I; cbn [InlineLoop.run]; [exact I|].
    apply IH. apply Inline_dispatch_copied_has_timer. exact I. }
  apply G. cbn. discriminate.
Qed.

Lemma Inline_copied_has_pending_timer_witness :
  InlineLoop.timers
    (InlineLoop.run
       [InlineLoop.copyHex_called; InlineLoop.copyHex_settled (Resolved tt);
        InlineLoop.copyHex_called; InlineLoop.copyHex_settled (Resolved tt);
        InlineLoop.timer_elapsed; InlineLoop.copyHex_settled (Resolved tt)]
       InlineLoop.loaded) <> [].
Proof.
  apply (Inline_copied_has_pending_timer
           [InlineLoop.copyHex_called; InlineLoop.copyHex_settled (Resolved tt);
            InlineLoop.copyHex_called; InlineLoop.copyHex_settled (Resolved tt);
            InlineLoop.timer_elapsed; InlineLoop.copyHex_settled (Resolved tt)]).
  reflexivity.
Defined.

End InlineFurther.

(* ================================================================= *)
(** ** How the operations compose *)

Section Composition.

(** X18. What [copyHex] hands to the clipboard is what the backend pushed:
    after a push that carries a role's hex, copying that role passes this
    very hex to [writeText]; and on the store as created, before any push,
    it passes the empty string. *)
Theorem copyHex_copies_pushed_hex :
  (forall (this : ColorPicker.ColorPickerStore) (s : HexStore.ColorStore.t) (h : string),
      HexStore.ColorStore.foreground s = Some h -> h <> "" ->
      snd (enter (ColorPicker.copyHex true) (HexStore.updateFromTauriStore this s)) = h) /\
  (forall (this : ColorPicker.ColorPickerStore) (s : HexStore.ColorStore.t) (h : string),
      HexStore.ColorStore.background s = Some h -> h <> "" ->
      snd (enter (ColorPicker.copyHex false) (HexStore.updateFromTauriStore this s)) = h) /\
  (forall isForeground : bool,
      snd (enter (ColorPicker.copyHex isForeground) ColorPicker.colorPickerStore) = "").
Proof.
  split; [|split].
  - intros this [f b cm] h E Hne. cbn in E. subst f.
    rewrite HexStore_update_cases.
    cbn [HexStore.ColorStore.foreground HexStore.ColorStore.background].
    assert (T : truthy (Some h) = true) by (destruct h; [contradiction Hne|]; reflexivity).
    rewrite T. destruct this, b as [b|]; try destruct (truthy (Some b)); reflexivity.
  - intros this [f b cm] h E Hne. cbn in E. subst b.
    rewrite HexStore_update_cases.
    cbn [HexStore.ColorStore.foreground HexStore.ColorStore.background].
    assert (T : truthy (Some h) = true) by (destruct h; [contradiction Hne|]; reflexivity).
    rewrite T. destruct this, f as [f|]; try destruct (truthy (Some f)); reflexivity.
  - intros []; reflexivity.
Qed.

Lemma copyHex_copies_pushed_hex_witness :
  snd (enter (ColorPicker.copyHex true)
         (HexStore.updateFromTauriStore ColorPicker.colorPickerStore
            {| HexStore.ColorStore.foreground := Some "#C0FFEE";
               HexStore.ColorStore.background := None;
               HexStore.ColorStore.continue_mode := false |})) = "#C0FFEE".
Proof.
  apply (proj1 copyHex_copies_pushed_hex); [reflexivity | discriminate].
Defined.

Lemma WcagStore_update_texts (this : WcagStore.UIStore) (s : WcagStore.BackendStore) :
  WcagStore.foregroundHex (WcagStore.updateFromTauriStore this s) =
    WcagStore.foreground_hex s /\
  WcagStore.backgroundHex (WcagStore.updateFromTauriStore this s) =
    WcagStore.background_hex s /\
  WcagStore.foregroundRgb (WcagStore.updateFromTauriStore this s) =
    (let '(r, g, b) := WcagStore.foreground_rgb s in rgbText (Num r) (Num g) (Num b)) /\
  WcagStore.backgroundRgb (WcagStore.updateFromTauriStore this s) =
    (let '(r, g, b) := WcagStore.background_rgb s in rgbText (Num r) (Num g) (Num b)).
Proof.
  destruct this, s as [p [[fr fg] fb] fh fd [[br bg] bb] bh bd ratio cm].
  unfold WcagStore.updateFromTauriStore;
    cbn [WcagStore.contrast_ratio_rounded WcagStore.platform
         WcagStore.foreground_rgb WcagStore.foreground_hex
         WcagStore.foreground_is_dark WcagStore.background_rgb
         WcagStore.background_hex WcagStore.background_is_dark].
  destruct (lt (Num ratio) (Num 7)), (lt (Num ratio) (Num (9 # 2))),
    (lt (Num ratio) (Num 3)); repeat split.
Qed.

(** X19. The [UIStore] keeps together what the backend sends together:
    when a payload's foreground hex is the ['#RRGGBB'] of its foreground
    byte triple, then after the push the RGB text shown is what
    [hexToRgb] reads from the hex shown; and so for the background. *)
Theorem UIStore_texts_agree_with_payload
  (this : WcagStore.UIStore) (s : WcagStore.BackendStore) (r g b : N) :
  (r < 256)%N -> (g < 256)%N -> (b < 256)%N ->
  (WcagStore.foreground_rgb s =
     (inject_Z (Z.of_N r), inject_Z (Z.of_N g), inject_Z (Z.of_N b)) ->
   WcagStore.foreground_hex s = Utils.rgbToHex (byte r) (byte g) (byte b) ->
   Utils.hexToRgb (WcagStore.foregroundHex (WcagStore.updateFromTauriStore this s)) =
   WcagStore.foregroundRgb (WcagStore.updateFromTauriStore this s)) /\
  (WcagStore.background_rgb s =
     (inject_Z (Z.of_N r), inject_Z (Z.of_N g), inject_Z (Z.of_N b)) ->
   WcagStore.background_hex s = Utils.rgbToHex (byte r) (byte g) (byte b) ->
   Utils.hexToRgb (WcagStore.backgroundHex (WcagStore.updateFromTauriStore this s)) =
   WcagStore.backgroundRgb (WcagStore.updateFromTauriStore this s)).
Proof.
  intros Hr Hg Hb.
  destruct (WcagStore_update_texts this s) as (Fh & Bh & Fr & Br).
  split; intros Ergb Ehex.
  - rewrite Fh, Fr, Ergb, Ehex. apply hexToRgb_rgbToHex; assumption.
  - rewrite Bh, Br, Ergb, Ehex. apply hexToRgb_rgbToHex; assumption.
Qed.

Lemma UIStore_texts_agree_with_payload_witness :
  Utils.hexToRgb
    (WcagStore.foregroundHex
       (WcagStore.updateFromTauriStore WcagStore.UIStore_initial (Backend.payloadWithRatio 21))) =
  WcagStore.foregroundRgb
    (WcagStore.updateFromTauriStore WcagStore.UIStore_initial (Backend.payloadWithRatio 21)).
Proof.
  apply (proj1 (UIStore_texts_agree_with_payload WcagStore.UIStore_initial
                  (Backend.payloadWithRatio 21) 0 0 0 eq_refl eq_refl eq_refl));
    reflexivity.
Defined.

End Composition.

(* ================================================================= *)
(** ** Hex to RGB to hex, through the text [hexToRgb] returns *)

Section HexRgbHex.
Import Utils.

Lemma splitComma_cons (c c2 : ascii) (rest2 : string) :
  splitComma (String c (String c2 rest2)) =
  if ((c =? ",")%char && (c2 =? " ")%char)%bool
  then (EmptyString, Some rest2)
  else let (a, b) := splitComma (String c2 rest2) in (String c a, b).
Proof. reflexivity. Qed.

Lemma splitComma_separator (s rest : string) :
  noComma s = true -> splitComma (s ++ ", " ++ rest) = (s, Some rest).
Proof.
  induction s as [|c s IH]; intros H.
  - reflexivity.
  - cbn [noComma] in H. apply andb_prop in H. destruct H as [Hc Hs].
    apply negb_true_iff in Hc.
    specialize (IH Hs).
    change (String c s ++ ", " ++ rest) with (String c (s ++ ", " ++ rest)).
    destruct (s ++ ", " ++ rest) as [|c2 rest2] eqn:E.
    + destruct s; discriminate E.
    + rewrite splitComma_cons, Hc. cbn [andb]. rewrite IH. reflexivity.
Qed.

Lemma splitComma_last (s : string) :
  noComma s = true -> splitComma s = (s, None).
Proof.
  induction s as [|c s IH]; intros H.
  - reflexivity.
  - cbn [noComma] in H. apply andb_prop in H. destruct H as [Hc Hs].
    apply negb_true_iff in Hc. specialize (IH Hs).
    destruct s as [|c2 rest2].
    + reflexivity.
    + rewrite splitComma_cons, Hc. cbn [andb]. rewrite IH. reflexivity.
Qed.

Lemma decimalByteCheck_all : forallb decimalByteCheck allBytes = true.
Proof. vm_compute. reflexivity. Qed.

(** The decimal text of a byte. *)
Lemma decimal_byte (n : N) :
  (n < 256)%N ->
  noComma (Number_toString 10 (byte n)) = true /\
  parseInt (Number_toString 10 (byte n)) 10 = byte n.
Proof.
  intros H.
  pose proof (proj1 (forallb_forall _ _) decimalByteCheck_all n (allBytes_complete n H)) as C.
  unfold decimalByteCheck in C. apply andb_prop in C. destruct C as [C1 C2].
  split; [exact C1 | apply isInteger_eq; exact C2].
Qed.

(** Reading the display text of three bytes gives the bytes back. *)
Lemma readRgbText_rgbText (r g b : N) :
  (r < 256)%N -> (g < 256)%N -> (b < 256)%N ->
  readRgbText (rgbText (byte r) (byte g) (byte b)) = Some (byte r, byte g, byte b).
Proof.
  intros Hr Hg Hb.
  destruct (decimal_byte r Hr) as [Nr Pr].
  destruct (decimal_byte g Hg) as [Ng Pg].
  destruct (decimal_byte b Hb) as [Nb Pb].
  unfold readRgbText, rgbText.
  rewrite (splitComma_separator _ _ Nr).
  rewrite (splitComma_separator _ _ Ng).
  rewrite Pr, Pg, Pb. reflexivity.
Qed.

(** What [hexToRgb] returns on a valid string, and what [rgbToHex] makes
    of it. *)
Lemma hexToRgb_valid_text (h : string) :
  validHex h = true ->
  exists r g b : N,
    (r < 256)%N /\ (g < 256)%N /\ (b < 256)%N /\
    hexToRgb_channels h = (byte r, byte g, byte b) /\
    hexToRgb h = rgbText (byte r) (byte g) (byte b) /\
    rgbToHex (byte r) (byte g) (byte b) = toUpperCase h.
Proof.
  intros H.
  pose proof (proj1 channels_roundtrip h H) as RT.
  destruct (validHex_shape h H) as (c1 & c2 & c3 & c4 & c5 & c6 & E & H1 & H2 & H3 & H4 & H5 & H6).
  subst h.
  destruct (parseInt_hexPair c1 c2 H1 H2) as (r & Hr & Pr & _).
  destruct (parseInt_hexPair c3 c4 H3 H4) as (g & Hg & Pg & _).
  destruct (parseInt_hexPair c5 c6 H5 H6) as (b & Hb & Pb & _).
  exists r, g, b.
  assert (Hch : hexToRgb_channels
                  (String "#" (String c1 (String c2 (String c3 (String c4
                     (String c5 (String c6 ""))))))) = (byte r, byte g, byte b)).
  { unfold hexToRgb_channels, slice. cbn [substring Nat.sub].
    rewrite Pr, Pg, Pb. reflexivity. }
  unfold hexToRgbToHex in RT. rewrite Hch in RT.
  repeat split; try assumption.
  unfold hexToRgb. rewrite Hch. reflexivity.
Qed.

(** C3. For every valid ['#RRGGBB'] string [h], with hex digits of either
    case, [hexToRgb h] is the text ['r, g, b'] of three bytes, the three
    channel values read from that text are those bytes, and [rgbToHex] of
    them is [h] in upper case; so hex to RGB to hex, through the text
    [hexToRgb] returns, gives the upper-case form of [h].  On each of the
    256 x 256 x 256 colour values [rgbToHex] writes a valid upper-case
    string, [hexToRgb] returns the text of the same three bytes for it,
    and hex to RGB to hex is the identity on it. *)
Theorem hex_rgb_hex_roundtrip :
  (forall h : string,
      validHex h = true ->
      exists r g b : N,
        (r < 256)%N /\ (g < 256)%N /\ (b < 256)%N /\
        hexToRgb h = rgbText (byte r) (byte g) (byte b) /\
        readRgbText (hexToRgb h) = Some (byte r, byte g, byte b) /\
        hexToRgb_channels h = (byte r, byte g, byte b) /\
        rgbToHex (byte r) (byte g) (byte b) = toUpperCase h) /\
  (forall h : string,
      validHex h = true -> hexToRgbThenRgbToHex h = Some (toUpperCase h)) /\
  (forall r g b : N, (r < 256)%N -> (g < 256)%N -> (b < 256)%N ->
      validHex (rgbToHex (byte r) (byte g) (byte b)) = true /\
      toUpperCase (rgbToHex (byte r) (byte g) (byte b)) = rgbToHex (byte r) (byte g) (byte b) /\
      hexToRgb (rgbToHex (byte r) (byte g) (byte b)) = rgbText (byte r) (byte g) (byte b) /\
      hexToRgb_channels (rgbToHex (byte r) (byte g) (byte b)) = (byte r, byte g, byte b) /\
      hexToRgbThenRgbToHex (rgbToHex (byte r) (byte g) (byte b)) =
      Some (rgbToHex (byte r) (byte g) (byte b))).
Proof.
  split; [|split].
  - intros h H.
    destruct (hexToRgb_valid_text h H) as (r & g & b & Hr & Hg & Hb & Hch & Htext & Hhex).
    exists r, g, b. repeat split; try assumption.
    rewrite Htext. apply readRgbText_rgbText; assumption.
  - intros h H.
    destruct (hexToRgb_valid_text h H) as (r & g & b & Hr & Hg & Hb & Hch & Htext & Hhex).
    unfold hexToRgbThenRgbToHex.
    rewrite Htext, (readRgbText_rgbText r g b Hr Hg Hb), Hhex. reflexivity.
  - intros r g b Hr Hg Hb.
    destruct (proj2 channels_roundtrip r g b Hr Hg Hb) as (V & U & C & _).
    assert (T : hexToRgb (rgbToHex (byte r) (byte g) (byte b)) =
                rgbText (byte r) (byte g) (byte b)).
    { unfold hexToRgb. rewrite C. reflexivity. }
    repeat split; try assumption.
    unfold hexToRgbThenRgbToHex.
    rewrite T, (readRgbText_rgbText r g b Hr Hg Hb). reflexivity.
Qed.

Lemma hex_rgb_hex_roundtrip_witness :
  hexToRgbThenRgbToHex "#12abEf" = Some "#12ABEF" /\
  hexToRgb (rgbToHex (byte 18) (byte 171) (byte 239)) = "18, 171, 239".
Proof.
  split.
  - apply (proj1 (proj2 hex_rgb_hex_roundtrip) "#12abEf"). reflexivity.
  - apply (proj1 (proj2 (proj2 (proj2 (proj2 hex_rgb_hex_roundtrip) 18%N 171%N 239%N
                                  eq_refl eq_refl eq_refl)))).
Defined.

End HexRgbHex.
